(** * adobe-mcp: the InDesign server, the command dispatch bridge and the
    auxiliary scripts

    A shallow embedding of

    - [src/adobe_mcp/indesign/server.py]: the module initialisation and the
      operation functions registered as MCP tools;
    - the dispatch bridge these functions call ([adobe_mcp.shared]);
    - [scripts/estimate_pages.py], [scripts/preflight_pdf.py] and
      [scripts/validate_document.py].

    Python code that talks to its environment is embedded as a program over
    an event signature ([Prog]): a finite tree whose nodes are the calls the
    code makes (to the bridge, to the MCP host runtime, to the operating
    system) and whose leaves are the values it returns.  A raised exception
    is a value [Raised e] of [Exc]; a function that can raise returns an
    [Exc], and so does a call to the environment that can. *)

From Stdlib Require Import ZArith NArith QArith Qround String Ascii List Lia.
From Stdlib Require Import DecimalString.
From Stdlib Require Import PrimFloat FloatOps SpecFloat FloatAxioms.
From stdpp Require Import base gmap strings list.

Local Open Scope string_scope.
Local Open Scope Z_scope.

(** ** Python values and exceptions *)

(** The values a payload or a reply can hold: null, booleans, numbers,
    strings, sequences and mappings.  A mapping is kept as an association
    list in insertion order, as a Python dict literal has it. *)
#[warnings="-register-all"] Inductive value : Type :=
| VNull
| VBool (b : bool)
| VInt (z : Z)
| VStr (s : string)
| VList (items : list value)
| VDict (entries : list (string * value)).

Abbreviation dict := (list (string * value)).

(** [d.get(key)] on a dict written as a literal: the first entry with the
    key. *)
Fixpoint dict_get (key : string) (d : dict) : option value :=
  match d with
  | [] => None
  | (k, v) :: rest => if String.eqb k key then Some v else dict_get key rest
  end.

(** Two dicts are equal as mappings when every key reads the same. *)
Definition dict_equiv (d1 d2 : dict) : Prop :=
  forall key, dict_get key d1 = dict_get key d2.

(** Modelled from the spec: the classification of a transport failure
    (taxonomy of section 7). *)
Variant FailureKind := Timeout | TransportUnavailable | ProtocolError.

Variant exn : Type :=
| ValueError (msg : string)
| ZeroDivisionError (msg : string)
| TypeError (msg : string)
| OverflowError (msg : string)
| UnicodeDecodeError (msg : string)
| UnicodeEncodeError (msg : string)
| OSError (msg : string)
| TransportError (kind : FailureKind) (msg : string)
| UsageError (msg : string).

Variant Exc (A : Type) : Type :=
| Returned (a : A)
| Raised (e : exn).
Arguments Returned {A} a.
Arguments Raised {A} e.

Definition exc_bind {A B} (r : Exc A) (f : A -> Exc B) : Exc B :=
  match r with
  | Returned a => f a
  | Raised e => Raised e
  end.

(** ** The data model of the bridge *)

(** Modelled from the spec: the Command Model of section 3.  The module
    [adobe_mcp/shared/core.py] that builds commands is not among the
    sources; [server.py] only passes the command it obtains from
    [createCommand] on to [sendCommand]. *)
Record Command := mkCommand {
  name : string;
  id : N;
  parameters : dict
}.

Record ErrorInfo := mkErrorInfo {
  kind : string;
  message : string
}.

(** Modelled from the spec: the Response of section 3.  Its invariant
    (exactly one of result and error is populated, consistent with the
    status) is carried by the type: a reply with status ok has a result,
    one with status error has an error. *)
Variant Body :=
| StatusOk (result : value)
| StatusError (err : ErrorInfo).

Record Response := mkResponse {
  resp_id : N;
  body : Body
}.

(** Modelled from the spec: the Outcome of section 4.4,
    [{success, data | null, error | null}]. *)
Record Outcome := mkOutcome {
  success : bool;
  data : option value;
  error : option ErrorInfo
}.

(** Modelled from the spec: the Endpoint Configuration of section 3. *)
Record EndpointConfig := mkEndpointConfig {
  application : string;
  address : string;
  timeout : N
}.

(** The text of a file once decoded: a sequence of code points. *)
Abbreviation text := (list N).

(** ** Programs over the calls the code makes *)

Variant Event : Type -> Type :=
(* adobe_mcp.shared *)
| Configure (app url : string) (timeout : N) : Event (Exc unit)
| Init (app : string) : Event (Exc unit)
| CreateCommand (action : string) (options : dict) : Event (Exc Command)
| SendCommand (command : Command) : Event (Exc Outcome)
| SendMessageBlocking (command : Command) : Event (Exc Response)
(* the MCP host runtime *)
| NewFastMCP (name log_level : string) : Event unit
| RegisterTool (name : string) : Event unit
| RegisterResource (uri name : string) : Event unit
(* the operating system *)
| Print (line : string) : Event (Exc unit)
| PrintErr (line : string) : Event unit
| PathExists (path : string) : Event (Exc bool)
| ReadText (path encoding : string) : Event (Exc text).

(** [print(line)] writes to [sys.stdout], whose encoding is the
    environment's and whose error handler is strict: the call raises
    [UnicodeEncodeError] for a line the stream cannot encode, and nothing
    of that line is written.  [print(line, file=sys.stderr)] cannot fail
    that way, the error handler of [sys.stderr] being [backslashreplace].
    [Path.exists()] answers [False] for a path that is not there, and
    raises [OSError] for one the operating system refuses to look up (a
    name that is too long, for one). *)

Inductive Prog (R : Type) : Type :=
| Ret (r : R)
| Vis {X : Type} (e : Event X) (k : X -> Prog R).
Arguments Ret {R} r.
Arguments Vis {R X} e k.

Fixpoint bind {A B} (p : Prog A) (f : A -> Prog B) : Prog B :=
  match p with
  | Ret a => f a
  | Vis e k => Vis e (fun x => bind (k x) f)
  end.

Definition trigger {X} (e : Event X) : Prog X := Vis e Ret.

(** Sequencing a call that may raise: the exception propagates. *)
Definition bind_exc {A B} (p : Prog (Exc A)) (f : A -> Prog (Exc B))
  : Prog (Exc B) :=
  bind p (fun r => match r with
                   | Returned a => f a
                   | Raised e => Ret (Raised e)
                   end).

Declare Scope prog_scope.
Delimit Scope prog_scope with prog.
Notation "x <- p ;; q" := (bind p (fun x => q))
  (at level 100, p at next level, q at level 200, right associativity)
  : prog_scope.
Notation "p ;; q" := (bind p (fun _ => q))
  (at level 100, q at level 200, right associativity) : prog_scope.
Notation "x <-? p ;; q" := (bind_exc p (fun x => q))
  (at level 100, p at next level, q at level 200, right associativity)
  : prog_scope.
Notation "p ;;? q" := (bind_exc p (fun _ => q))
  (at level 100, q at level 200, right associativity) : prog_scope.
Local Open Scope prog_scope.

(** The functions [server.py] imports from [adobe_mcp.shared]. *)
Definition createCommand (action : string) (options : dict)
  : Prog (Exc Command) := trigger (CreateCommand action options).
Definition sendCommand (command : Command) : Prog (Exc Outcome) :=
  trigger (SendCommand command).
Definition configure (app url : string) (timeout : N) : Prog (Exc unit) :=
  trigger (Configure app url timeout).
Definition init (app : string) : Prog (Exc unit) := trigger (Init app).
Definition print (line : string) : Prog (Exc unit) := trigger (Print line).
Definition print_err (line : string) : Prog unit := trigger (PrintErr line).

(** Optional arguments whose default is [None]. *)
Definition opt_int (o : option Z) : value :=
  match o with Some z => VInt z | None => VNull end.
Definition opt_list (o : option (list value)) : value :=
  match o with Some l => VList l | None => VNull end.

(** ** [adobe_mcp/indesign/server.py] *)

Module InDesign.

Definition mcp_name := "Adobe InDesign MCP Server".

Definition APPLICATION := "indesign".
Definition PROXY_URL := "http://localhost:3001".
Definition PROXY_TIMEOUT : N := 20.

(** Default values of the keyword arguments. *)
Definition default_columns : dict := [("count", VInt 1); ("gutter", VInt 12)].
Definition default_margins : dict :=
  [("top", VInt 36); ("bottom", VInt 36); ("left", VInt 36);
   ("right", VInt 36)].
Definition default_text_frame_bounds : list value :=
  [VInt 72; VInt 72; VInt 500; VInt 400].
Definition default_threaded_bounds : list value :=
  [VInt 54; VInt 54; VInt 594; VInt 378].

Definition create_document (width height pages : Z) (facing_pages : bool)
    (columns margins : dict) : Prog (Exc Outcome) :=
  command <-? createCommand "createDocument"
    [("intent", VStr "WEB_INTENT");
     ("pageWidth", VInt width);
     ("pageHeight", VInt height);
     ("margins", VDict margins);
     ("columns", VDict columns);
     ("pagesPerDocument", VInt pages);
     ("facingPages", VBool facing_pages)] ;;
  sendCommand command.

Definition get_text_frames (page_index : Z) : Prog (Exc Outcome) :=
  command <-? createCommand "getTextFrames"
    [("pageIndex", VInt page_index)] ;;
  sendCommand command.

Definition get_text_frame_info (text_frame_index page_index : Z)
  : Prog (Exc Outcome) :=
  command <-? createCommand "getTextFrameInfo"
    [("frameIndex", VInt text_frame_index);
     ("pageIndex", VInt page_index)] ;;
  sendCommand command.

Definition open_document (file_path : string) : Prog (Exc Outcome) :=
  command <-? createCommand "openDocument"
    [("filePath", VStr file_path)] ;;
  sendCommand command.

Definition save_document : Prog (Exc Outcome) :=
  command <-? createCommand "saveDocument" [] ;;
  sendCommand command.

Definition save_document_as (file_path : string) : Prog (Exc Outcome) :=
  command <-? createCommand "saveDocumentAs"
    [("filePath", VStr file_path)] ;;
  sendCommand command.

Definition close_document (save_options : string) : Prog (Exc Outcome) :=
  command <-? createCommand "closeDocument"
    [("saveOptions", VStr save_options)] ;;
  sendCommand command.

Definition get_document_info : Prog (Exc Outcome) :=
  command <-? createCommand "getDocumentInfo" [] ;;
  sendCommand command.

Definition create_text_frame (page_index : Z) (geometric_bounds : list value)
  : Prog (Exc Outcome) :=
  command <-? createCommand "createTextFrame"
    [("pageIndex", VInt page_index);
     ("geometricBounds", VList geometric_bounds)] ;;
  sendCommand command.

Definition insert_text (text_frame_index : Z) (text : string)
    (page_index : Z) : Prog (Exc Outcome) :=
  command <-? createCommand "insertText"
    [("frameIndex", VInt text_frame_index);
     ("text", VStr text);
     ("pageIndex", VInt page_index)] ;;
  sendCommand command.

Definition import_text_file (text_frame_index : Z) (file_path : string)
    (page_index insertion_point : Z) : Prog (Exc Outcome) :=
  command <-? createCommand "importTextFile"
    [("frameIndex", VInt text_frame_index);
     ("filePath", VStr file_path);
     ("pageIndex", VInt page_index);
     ("insertionPoint", VInt insertion_point)] ;;
  sendCommand command.

Definition remove_duplicate_frames : Prog (Exc Outcome) :=
  command <-? createCommand "removeDuplicateFrames" [] ;;
  sendCommand command.

Definition create_threaded_frames (start_page end_page : Z)
    (geometric_bounds : list value) : Prog (Exc Outcome) :=
  command <-? createCommand "createThreadedFrames"
    [("startPage", VInt start_page);
     ("endPage", VInt end_page);
     ("geometricBounds", VList geometric_bounds)] ;;
  sendCommand command.

Definition link_text_frames (source_frame_index target_frame_index
    source_page_index target_page_index : Z) : Prog (Exc Outcome) :=
  command <-? createCommand "linkTextFrames"
    [("sourceFrameIndex", VInt source_frame_index);
     ("targetFrameIndex", VInt target_frame_index);
     ("sourcePageIndex", VInt source_page_index);
     ("targetPageIndex", VInt target_page_index)] ;;
  sendCommand command.

Definition get_text_content (text_frame_index page_index : Z)
  : Prog (Exc Outcome) :=
  command <-? createCommand "getTextContent"
    [("frameIndex", VInt text_frame_index);
     ("pageIndex", VInt page_index)] ;;
  sendCommand command.

Definition detect_text_overflow (text_frame_index page_index : Z)
  : Prog (Exc Outcome) :=
  command <-? createCommand "detectTextOverflow"
    [("frameIndex", VInt text_frame_index);
     ("pageIndex", VInt page_index)] ;;
  sendCommand command.

Definition get_paragraph_styles : Prog (Exc Outcome) :=
  command <-? createCommand "getParagraphStyles" [] ;;
  sendCommand command.

Definition get_character_styles : Prog (Exc Outcome) :=
  command <-? createCommand "getCharacterStyles" [] ;;
  sendCommand command.

Definition apply_paragraph_style (style_name : string)
    (text_frame_index : Z) (paragraph_range : string) (page_index : Z)
  : Prog (Exc Outcome) :=
  command <-? createCommand "applyParagraphStyle"
    [("styleName", VStr style_name);
     ("frameIndex", VInt text_frame_index);
     ("paragraphRange", VStr paragraph_range);
     ("pageIndex", VInt page_index)] ;;
  sendCommand command.

Definition apply_character_style_to_text (style_name search_text : string)
    (text_frame_index occurrence page_index : Z) : Prog (Exc Outcome) :=
  command <-? createCommand "applyCharacterStyleToText"
    [("styleName", VStr style_name);
     ("searchText", VStr search_text);
     ("frameIndex", VInt text_frame_index);
     ("occurrence", VInt occurrence);
     ("pageIndex", VInt page_index)] ;;
  sendCommand command.

Definition create_paragraph_style (style_name : string) (properties : dict)
  : Prog (Exc Outcome) :=
  command <-? createCommand "createParagraphStyle"
    [("styleName", VStr style_name);
     ("properties", VDict properties)] ;;
  sendCommand command.

Definition add_page (location : string) (reference_page : option Z)
  : Prog (Exc Outcome) :=
  command <-? createCommand "addPage"
    [("location", VStr location);
     ("referencePage", opt_int reference_page)] ;;
  sendCommand command.

Definition place_image (file_path : string) (page_index : Z)
    (position : option (list value)) (fit_option : string)
  : Prog (Exc Outcome) :=
  command <-? createCommand "placeImage"
    [("filePath", VStr file_path);
     ("pageIndex", VInt page_index);
     ("position", opt_list position);
     ("fitOption", VStr fit_option)] ;;
  sendCommand command.

Definition get_pdf_export_presets : Prog (Exc Outcome) :=
  command <-? createCommand "getPdfExportPresets" [] ;;
  sendCommand command.

Definition export_pdf (file_path page_range preset_name : string)
  : Prog (Exc Outcome) :=
  command <-? createCommand "exportPdf"
    [("filePath", VStr file_path);
     ("pageRange", VStr page_range);
     ("presetName", VStr preset_name)] ;;
  sendCommand command.

(** The resource [config://get_instructions]: a constant text, no call. *)
Definition get_instructions : string :=
"
    You are an InDesign and design expert who is creative and loves to help other people learn to use InDesign and create.

    Rules to follow:

    1. Think deeply about how to solve the task
    2. Always check your work
    3. Read the info for the API calls to make sure you understand the requirements and arguments
    ".

(** The operation functions the module registers with [@mcp.tool()], in the
    order of the file. *)
Variant Tool :=
| T_create_document | T_get_text_frames | T_get_text_frame_info
| T_open_document | T_save_document | T_save_document_as
| T_close_document | T_get_document_info | T_create_text_frame
| T_insert_text | T_import_text_file | T_remove_duplicate_frames
| T_create_threaded_frames | T_link_text_frames | T_get_text_content
| T_detect_text_overflow | T_get_paragraph_styles | T_get_character_styles
| T_apply_paragraph_style | T_apply_character_style_to_text
| T_create_paragraph_style | T_add_page | T_place_image
| T_get_pdf_export_presets | T_export_pdf.

Definition all_tools : list Tool :=
  [T_create_document; T_get_text_frames; T_get_text_frame_info;
   T_open_document; T_save_document; T_save_document_as;
   T_close_document; T_get_document_info; T_create_text_frame;
   T_insert_text; T_import_text_file; T_remove_duplicate_frames;
   T_create_threaded_frames; T_link_text_frames; T_get_text_content;
   T_detect_text_overflow; T_get_paragraph_styles; T_get_character_styles;
   T_apply_paragraph_style; T_apply_character_style_to_text;
   T_create_paragraph_style; T_add_page; T_place_image;
   T_get_pdf_export_presets; T_export_pdf].

Definition tool_name (t : Tool) : string :=
  match t with
  | T_create_document => "create_document"
  | T_get_text_frames => "get_text_frames"
  | T_get_text_frame_info => "get_text_frame_info"
  | T_open_document => "open_document"
  | T_save_document => "save_document"
  | T_save_document_as => "save_document_as"
  | T_close_document => "close_document"
  | T_get_document_info => "get_document_info"
  | T_create_text_frame => "create_text_frame"
  | T_insert_text => "insert_text"
  | T_import_text_file => "import_text_file"
  | T_remove_duplicate_frames => "remove_duplicate_frames"
  | T_create_threaded_frames => "create_threaded_frames"
  | T_link_text_frames => "link_text_frames"
  | T_get_text_content => "get_text_content"
  | T_detect_text_overflow => "detect_text_overflow"
  | T_get_paragraph_styles => "get_paragraph_styles"
  | T_get_character_styles => "get_character_styles"
  | T_apply_paragraph_style => "apply_paragraph_style"
  | T_apply_character_style_to_text => "apply_character_style_to_text"
  | T_create_paragraph_style => "create_paragraph_style"
  | T_add_page => "add_page"
  | T_place_image => "place_image"
  | T_get_pdf_export_presets => "get_pdf_export_presets"
  | T_export_pdf => "export_pdf"
  end.

(** The argument tuple of each operation, in the order of its signature. *)
Definition Args (t : Tool) : Type :=
  match t with
  | T_create_document => Z * Z * Z * bool * dict * dict
  | T_get_text_frames => Z
  | T_get_text_frame_info => Z * Z
  | T_open_document => string
  | T_save_document => unit
  | T_save_document_as => string
  | T_close_document => string
  | T_get_document_info => unit
  | T_create_text_frame => Z * list value
  | T_insert_text => Z * string * Z
  | T_import_text_file => Z * string * Z * Z
  | T_remove_duplicate_frames => unit
  | T_create_threaded_frames => Z * Z * list value
  | T_link_text_frames => Z * Z * Z * Z
  | T_get_text_content => Z * Z
  | T_detect_text_overflow => Z * Z
  | T_get_paragraph_styles => unit
  | T_get_character_styles => unit
  | T_apply_paragraph_style => string * Z * string * Z
  | T_apply_character_style_to_text => string * string * Z * Z * Z
  | T_create_paragraph_style => string * dict
  | T_add_page => string * option Z
  | T_place_image => string * Z * option (list value) * string
  | T_get_pdf_export_presets => unit
  | T_export_pdf => string * string * string
  end%type.

(** A tool call made by the host: the operation applied to its arguments. *)
Definition invoke (t : Tool) : Args t -> Prog (Exc Outcome) :=
  match t with
  | T_create_document => fun '(w, h, p, f, c, m) => create_document w h p f c m
  | T_get_text_frames => get_text_frames
  | T_get_text_frame_info => fun '(i, p) => get_text_frame_info i p
  | T_open_document => open_document
  | T_save_document => fun _ => save_document
  | T_save_document_as => save_document_as
  | T_close_document => close_document
  | T_get_document_info => fun _ => get_document_info
  | T_create_text_frame => fun '(p, b) => create_text_frame p b
  | T_insert_text => fun '(i, t, p) => insert_text i t p
  | T_import_text_file => fun '(i, f, p, n) => import_text_file i f p n
  | T_remove_duplicate_frames => fun _ => remove_duplicate_frames
  | T_create_threaded_frames => fun '(s, e, b) => create_threaded_frames s e b
  | T_link_text_frames => fun '(s, t, sp, tp) => link_text_frames s t sp tp
  | T_get_text_content => fun '(i, p) => get_text_content i p
  | T_detect_text_overflow => fun '(i, p) => detect_text_overflow i p
  | T_get_paragraph_styles => fun _ => get_paragraph_styles
  | T_get_character_styles => fun _ => get_character_styles
  | T_apply_paragraph_style =>
      fun '(n, i, r, p) => apply_paragraph_style n i r p
  | T_apply_character_style_to_text =>
      fun '(n, s, i, o, p) => apply_character_style_to_text n s i o p
  | T_create_paragraph_style => fun '(n, p) => create_paragraph_style n p
  | T_add_page => fun '(l, r) => add_page l r
  | T_place_image => fun '(f, p, pos, fit) => place_image f p pos fit
  | T_get_pdf_export_presets => fun _ => get_pdf_export_presets
  | T_export_pdf => fun '(f, r, p) => export_pdf f r p
  end.

(** The names of the parameters of each operation, in the order of its
    signature. *)
Definition parameter_names (t : Tool) : list string :=
  match t with
  | T_create_document =>
      ["width"; "height"; "pages"; "facing_pages"; "columns"; "margins"]
  | T_get_text_frames => ["page_index"]
  | T_get_text_frame_info => ["text_frame_index"; "page_index"]
  | T_open_document => ["file_path"]
  | T_save_document => []
  | T_save_document_as => ["file_path"]
  | T_close_document => ["save_options"]
  | T_get_document_info => []
  | T_create_text_frame => ["page_index"; "geometric_bounds"]
  | T_insert_text => ["text_frame_index"; "text"; "page_index"]
  | T_import_text_file =>
      ["text_frame_index"; "file_path"; "page_index"; "insertion_point"]
  | T_remove_duplicate_frames => []
  | T_create_threaded_frames => ["start_page"; "end_page"; "geometric_bounds"]
  | T_link_text_frames =>
      ["source_frame_index"; "target_frame_index"; "source_page_index";
       "target_page_index"]
  | T_get_text_content => ["text_frame_index"; "page_index"]
  | T_detect_text_overflow => ["text_frame_index"; "page_index"]
  | T_get_paragraph_styles => []
  | T_get_character_styles => []
  | T_apply_paragraph_style =>
      ["style_name"; "text_frame_index"; "paragraph_range"; "page_index"]
  | T_apply_character_style_to_text =>
      ["style_name"; "search_text"; "text_frame_index"; "occurrence";
       "page_index"]
  | T_create_paragraph_style => ["style_name"; "properties"]
  | T_add_page => ["location"; "reference_page"]
  | T_place_image => ["file_path"; "page_index"; "position"; "fit_option"]
  | T_get_pdf_export_presets => []
  | T_export_pdf => ["file_path"; "page_range"; "preset_name"]
  end.

(** The arguments of a call as the function body sees them: each parameter
    name bound to the value it was given. *)
Definition arguments (t : Tool) : Args t -> dict :=
  match t with
  | T_create_document => fun '(w, h, p, f, c, m) =>
      [("width", VInt w); ("height", VInt h); ("pages", VInt p);
       ("facing_pages", VBool f); ("columns", VDict c); ("margins", VDict m)]
  | T_get_text_frames => fun p => [("page_index", VInt p)]
  | T_get_text_frame_info => fun '(i, p) =>
      [("text_frame_index", VInt i); ("page_index", VInt p)]
  | T_open_document => fun f => [("file_path", VStr f)]
  | T_save_document => fun _ => []
  | T_save_document_as => fun f => [("file_path", VStr f)]
  | T_close_document => fun o => [("save_options", VStr o)]
  | T_get_document_info => fun _ => []
  | T_create_text_frame => fun '(p, b) =>
      [("page_index", VInt p); ("geometric_bounds", VList b)]
  | T_insert_text => fun '(i, t, p) =>
      [("text_frame_index", VInt i); ("text", VStr t); ("page_index", VInt p)]
  | T_import_text_file => fun '(i, f, p, n) =>
      [("text_frame_index", VInt i); ("file_path", VStr f);
       ("page_index", VInt p); ("insertion_point", VInt n)]
  | T_remove_duplicate_frames => fun _ => []
  | T_create_threaded_frames => fun '(s, e, b) =>
      [("start_page", VInt s); ("end_page", VInt e);
       ("geometric_bounds", VList b)]
  | T_link_text_frames => fun '(s, t, sp, tp) =>
      [("source_frame_index", VInt s); ("target_frame_index", VInt t);
       ("source_page_index", VInt sp); ("target_page_index", VInt tp)]
  | T_get_text_content => fun '(i, p) =>
      [("text_frame_index", VInt i); ("page_index", VInt p)]
  | T_detect_text_overflow => fun '(i, p) =>
      [("text_frame_index", VInt i); ("page_index", VInt p)]
  | T_get_paragraph_styles => fun _ => []
  | T_get_character_styles => fun _ => []
  | T_apply_paragraph_style => fun '(n, i, r, p) =>
      [("style_name", VStr n); ("text_frame_index", VInt i);
       ("paragraph_range", VStr r); ("page_index", VInt p)]
  | T_apply_character_style_to_text => fun '(n, s, i, o, p) =>
      [("style_name", VStr n); ("search_text", VStr s);
       ("text_frame_index", VInt i); ("occurrence", VInt o);
       ("page_index", VInt p)]
  | T_create_paragraph_style => fun '(n, p) =>
      [("style_name", VStr n); ("properties", VDict p)]
  | T_add_page => fun '(l, r) =>
      [("location", VStr l); ("reference_page", opt_int r)]
  | T_place_image => fun '(f, p, pos, fit) =>
      [("file_path", VStr f); ("page_index", VInt p);
       ("position", opt_list pos); ("fit_option", VStr fit)]
  | T_get_pdf_export_presets => fun _ => []
  | T_export_pdf => fun '(f, r, p) =>
      [("file_path", VStr f); ("page_range", VStr r); ("preset_name", VStr p)]
  end.

Record Call := mkCall { tool : Tool; args : Args tool }.

Fixpoint register_tools (tools : list Tool) : Prog unit :=
  match tools with
  | [] => Ret tt
  | t :: rest => trigger (RegisterTool (tool_name t)) ;; register_tools rest
  end.

(** The statements the module runs when it is imported, top to bottom. *)
Definition module_body : Prog (Exc unit) :=
  trigger (NewFastMCP mcp_name "ERROR") ;;
  print_err (mcp_name ++ " running on stdio") ;;
  _ <-? configure APPLICATION PROXY_URL PROXY_TIMEOUT ;;
  _ <-? init APPLICATION ;;
  register_tools all_tools ;;
  trigger (RegisterResource "config://get_instructions" "get_instructions") ;;
  Ret (Returned tt).

(** [mcp.run]: the host calls registered tools one at a time; an exception
    raised by a tool is reported to the client and the server goes on. *)
Fixpoint serve (calls : list Call) : Prog unit :=
  match calls with
  | [] => Ret tt
  | c :: rest => _ <- invoke (tool c) (args c) ;; serve rest
  end.

(** The server process: import the module, then serve. *)
Definition process (calls : list Call) : Prog (Exc unit) :=
  _ <-? module_body ;;
  serve calls ;;
  Ret (Returned tt).

End InDesign.

(** ** Running a program *)

(** An environment answers every call and keeps its own state. *)
Definition handler (S : Type) : Type := forall X, Event X -> S -> X * S.

Fixpoint run {S R} (h : handler S) (p : Prog R) (s : S) : R * S :=
  match p with
  | Ret r => (r, s)
  | Vis e k => let '(x, s') := h _ e s in run h (k x) s'
  end.

(** The calls into the bridge, as an observer of a run records them. *)
Variant BridgeCall :=
| CallConfigure (app url : string) (timeout : N)
| CallInit (app : string)
| CallCreateCommand (action : string) (options : dict)
| CallSendCommand (command : Command)
| CallSendMessageBlocking (command : Command).

Definition bridge_call {X} (e : Event X) : option BridgeCall :=
  match e with
  | Configure app url t => Some (CallConfigure app url t)
  | Init app => Some (CallInit app)
  | CreateCommand action options => Some (CallCreateCommand action options)
  | SendCommand command => Some (CallSendCommand command)
  | SendMessageBlocking command => Some (CallSendMessageBlocking command)
  | _ => None
  end.

Definition record_call {X} (e : Event X) (log : list BridgeCall)
  : list BridgeCall :=
  match bridge_call e with
  | Some c => c :: log
  | None => log
  end.

(** The bridge calls of a run, in the order they are made. *)
Fixpoint trace {S R} (h : handler S) (p : Prog R) (s : S) : list BridgeCall :=
  match p with
  | Ret _ => []
  | Vis e k => let '(x, s') := h _ e s in record_call e (trace h (k x) s')
  end.


(** ** The dispatch bridge ([adobe_mcp.shared]) *)

Module Bridge.

(** Modelled from the spec: what arrives on the connection after a command
    was written to it: a reply that decodes against the Response shape, one
    that does not, or the loss of the connection (section 4.3). *)
Variant Reply :=
| Decoded (r : Response)
| Undecodable (raw : string).

Variant Incoming :=
| Arrives (reply : Reply)
| ConnectionLost.

(** Modelled from the spec: the behaviour of an endpoint for one request
    (the proxy is external, section 6): whether it can be reached
    when the command is sent, and what comes back afterwards, each item
    with the delay in seconds since the previous one. *)
Record Wire := mkWire {
  reachable : bool;
  incoming : list (N * Incoming)
}.

Variant TransportResult :=
| Delivered (r : Response)
| Failed (k : FailureKind) (msg : string).

(** Modelled from the spec: the wait of the Transport Client (section 4.3),
    of which [socket_client.py] is not among the sources.  [remaining] is
    what is left of the timeout, [elapsed] the time waited so far, [cid]
    the correlation identity of the command sent.  An item that arrives
    after the deadline is not looked at; a reply with another identity is
    discarded (the first of the two behaviours section 8 allows) and the
    wait goes on.  The result comes with the time at which the call
    returns. *)
Fixpoint wait (remaining elapsed cid : N) (items : list (N * Incoming))
  : TransportResult * N :=
  match items with
  | [] => (Failed Timeout "no reply", elapsed + remaining)
  | (delay, item) :: rest =>
      if remaining <? delay then
        (Failed Timeout "no reply", elapsed + remaining)
      else
        match item with
        | ConnectionLost =>
            (Failed TransportUnavailable "connection lost", elapsed + delay)
        | Arrives (Undecodable raw) =>
            (Failed ProtocolError raw, elapsed + delay)
        | Arrives (Decoded r) =>
            if resp_id r =? cid then (Delivered r, elapsed + delay)
            else wait (remaining - delay) (elapsed + delay) cid rest
        end
  end%N.

(** Modelled from the spec: [send] of the Transport Client (section 4.3):
    write the command to the configured endpoint, then wait for the reply
    with its identity up to the configured timeout. *)
Definition send_message_blocking (cfg : EndpointConfig) (command : Command)
    (wire : Wire) : TransportResult * N :=
  if reachable wire then wait (timeout cfg) 0 (id command) (incoming wire)
  else (Failed TransportUnavailable "endpoint unreachable", 0%N).

(** Whether a reply with the identity [cid] arrives within [remaining]
    seconds. *)
Fixpoint answered (remaining cid : N) (items : list (N * Incoming)) : bool :=
  match items with
  | [] => false
  | (delay, item) :: rest =>
      if remaining <? delay then false
      else
        match item with
        | Arrives (Decoded r) =>
            (resp_id r =? cid) || answered (remaining - delay) cid rest
        | _ => answered (remaining - delay) cid rest
        end
  end%N.

(** Whether, within [remaining] seconds, the connection is lost or
    something arrives that is not a reply. *)
Fixpoint faulted (remaining : N) (items : list (N * Incoming)) : bool :=
  match items with
  | [] => false
  | (delay, item) :: rest =>
      if remaining <? delay then false
      else
        match item with
        | Arrives (Decoded _) => faulted (remaining - delay) rest
        | _ => true
        end
  end%N.

Definition kind_name (k : FailureKind) : string :=
  match k with
  | Timeout => "Timeout"
  | TransportUnavailable => "TransportUnavailable"
  | ProtocolError => "ProtocolError"
  end.

(** Modelled from the spec: the kinds an Outcome reports for the failures
    of the transport (taxonomy of section 7). *)
Definition transport_kinds : list string :=
  map kind_name [Timeout; TransportUnavailable; ProtocolError].

(** Modelled from the spec: the normalisation of the Dispatch Facade
    (section 4.4): one Outcome shape for a result, for a reply with status
    error and for a transport failure. *)
Definition normalize (r : TransportResult) : Outcome :=
  match r with
  | Delivered {| body := StatusOk v |} =>
      {| success := true; data := Some v; error := None |}
  | Delivered {| body := StatusError e |} =>
      {| success := false; data := None; error := Some e |}
  | Failed k msg =>
      {| success := false; data := None;
         error := Some {| kind := kind_name k; message := msg |} |}
  end.

(** Modelled from the spec: the process-wide state of the bridge: the
    registry of section 4.5, the counter of the Command Builder, and, for
    an observer, the commands sent and the time spent waiting. *)
Record State := mkState {
  registry : gmap string EndpointConfig; (* application -> its client *)
  bound : option string;                 (* the application of the facade *)
  next_id : N;                           (* the next correlation identity *)
  sent : list Command;                   (* commands sent, latest first *)
  clock : N                              (* seconds spent waiting *)
}.

Definition initial : State :=
  {| registry := ∅; bound := None; next_id := 0; sent := []; clock := 0 |}.

(** Modelled from the spec: Registration (section 4.5), which [server.py]
    performs with the two calls [socket_client.configure] and [init]:
    the first binds the endpoint configuration to the application identity
    (binding again replaces), the second tells the facade which application
    it dispatches for. *)
Definition do_configure (app url : string) (t : N) (s : State) : State :=
  {| registry := <[app := mkEndpointConfig app url t]> (registry s);
     bound := bound s; next_id := next_id s; sent := sent s;
     clock := clock s |}.

Definition do_init (app : string) (s : State) : State :=
  {| registry := registry s; bound := Some app; next_id := next_id s;
     sent := sent s; clock := clock s |}.

(** Modelled from the spec: the Command Builder (section 4.2).  It always
    succeeds and takes the identity from a counter. *)
Definition do_createCommand (action : string) (options : dict) (s : State)
  : Command * State :=
  (mkCommand action (next_id s) options,
   {| registry := registry s; bound := bound s; next_id := N.succ (next_id s);
      sent := sent s; clock := clock s |}).

(** Modelled from the spec: the client the facade dispatches through; none
    when the application was not registered. *)
Definition client (s : State) : option EndpointConfig :=
  match bound s with
  | Some app => registry s !! app
  | None => None
  end.

(** The state once [command] was sent and the call returned after
    [elapsed] seconds. *)
Definition after_send (command : Command) (elapsed : N) (s : State) : State :=
  {| registry := registry s; bound := bound s; next_id := next_id s;
     sent := command :: sent s; clock := (clock s + elapsed)%N |}.

Definition unregistered : exn := UsageError "application not registered".

(** Modelled from the spec: the transport call as a caller of the client
    sees it: a failure is raised with its classification. *)
Definition do_send_message_blocking (command : Command) (wire : Wire)
    (s : State) : Exc Response * State :=
  match client s with
  | None => (Raised unregistered, s)
  | Some cfg =>
      let '(r, elapsed) := send_message_blocking cfg command wire in
      (match r with
       | Delivered resp => Returned resp
       | Failed k msg => Raised (TransportError k msg)
       end,
       after_send command elapsed s)
  end.

(** Modelled from the spec: [dispatch] of the Dispatch Facade (section
    4.4) for a command already built, which is what [sendCommand] is given
    by [server.py]: deliver through the client, normalise what comes back.
    Dispatching for an application that was not registered is the fatal
    caller error of section 4.5. *)
Definition do_sendCommand (command : Command) (wire : Wire) (s : State)
  : Exc Outcome * State :=
  match client s with
  | None => (Raised unregistered, s)
  | Some cfg =>
      let '(r, elapsed) := send_message_blocking cfg command wire in
      (Returned (normalize r), after_send command elapsed s)
  end.

End Bridge.

(** ** The world a process runs in *)

(** A file as reading it shows it: its text when decoded as UTF-8 (none
    when the bytes are not valid UTF-8) and its text decoded as Latin-1. *)
Record File := mkFile {
  as_utf8 : option text;
  as_latin1 : text
}.

(** The text [count_text] gets from a file: decoded as UTF-8 when that is
    possible, as Latin-1 otherwise. *)
Definition decoded (f : File) : text :=
  match as_utf8 f with
  | Some t => t
  | None => as_latin1 f
  end.

Record World := mkWorld {
  bridge : Bridge.State;
  proxy : Command -> Bridge.Wire;   (* what the endpoint does, per command *)
  files : gmap string File;
  stdout : list string;
  stderr : list string;
  encodes : string -> bool;         (* the lines the standard output takes *)
  registered_tools : list string
}.

Definition with_bridge (b : Bridge.State) (w : World) : World :=
  {| bridge := b; proxy := proxy w; files := files w; stdout := stdout w;
     stderr := stderr w; encodes := encodes w;
     registered_tools := registered_tools w |}.

Definition on_bridge {A} (f : Bridge.State -> A * Bridge.State) (w : World)
  : A * World :=
  let '(a, b) := f (bridge w) in (a, with_bridge b w).

Definition read_text (path encoding : string) (w : World) : Exc text :=
  match files w !! path with
  | None => Raised (OSError "No such file or directory")
  | Some f =>
      if String.eqb encoding "utf-8" then
        match as_utf8 f with
        | Some t => Returned t
        | None => Raised (UnicodeDecodeError "invalid start byte")
        end
      else Returned (as_latin1 f)
  end.

(** The length from which the operating system refuses to look a path up
    ([PATH_MAX] of Linux).  It refuses other names (one with a component
    of more than 255 bytes, for one); these are left to other
    environments. *)
Definition PATH_MAX : nat := 4096.

(** [Path(path).exists()]. *)
Definition path_exists (path : string) (w : World) : Exc bool :=
  if (PATH_MAX <=? String.length path)%nat
  then Raised (OSError "File name too long")
  else Returned (bool_decide (is_Some (files w !! path))).

(** [print(line)]: the line is written, or refused as a whole. *)
Definition write_line (line : string) (w : World) : Exc unit * World :=
  if encodes w line then
    (Returned tt,
     {| bridge := bridge w; proxy := proxy w; files := files w;
        stdout := stdout w ++ [line]; stderr := stderr w;
        encodes := encodes w; registered_tools := registered_tools w |})
  else (Raised (UnicodeEncodeError "codec can't encode character"), w).

(** The environment of a process: the bridge of the previous section, a
    host that records the tools registered, and an operating system with
    two output streams and a file system. *)
Definition world : handler World :=
  fun X (e : Event X) (w : World) =>
    match e in Event X return X * World with
    | Configure app url t =>
        on_bridge (fun b => (Returned tt, Bridge.do_configure app url t b)) w
    | Init app =>
        on_bridge (fun b => (Returned tt, Bridge.do_init app b)) w
    | CreateCommand action options =>
        on_bridge (fun b =>
          let '(c, b') := Bridge.do_createCommand action options b in
          (Returned c, b')) w
    | SendCommand command =>
        on_bridge (Bridge.do_sendCommand command (proxy w command)) w
    | SendMessageBlocking command =>
        on_bridge (Bridge.do_send_message_blocking command (proxy w command)) w
    | NewFastMCP _ _ => (tt, w)
    | RegisterTool tool_name =>
        (tt, {| bridge := bridge w; proxy := proxy w; files := files w;
                stdout := stdout w; stderr := stderr w;
                encodes := encodes w;
                registered_tools := registered_tools w ++ [tool_name] |})
    | RegisterResource _ _ => (tt, w)
    | Print line => write_line line w
    | PrintErr line =>
        (tt, {| bridge := bridge w; proxy := proxy w; files := files w;
                stdout := stdout w; stderr := stderr w ++ [line];
                encodes := encodes w;
                registered_tools := registered_tools w |})
    | PathExists path => (path_exists path w, w)
    | ReadText path encoding => (read_text path encoding w, w)
    end.

(** [sys.exit(main())]: the exit status of a script.  An exception that
    [main] does not catch ends the process with status 1. *)
Definition exit_status (r : Exc Z) : Z :=
  match r with
  | Returned code => code
  | Raised _ => 1
  end.

(** ** Strings and numbers of the Python runtime *)

(** A Python [str] given on the command line is held as the string of its
    UTF-8 encoding; splitting at an ASCII character and searching for one
    commute with the encoding. *)

(** [s.split(sep)] for a one-character separator. *)
Fixpoint split_on (sep : ascii) (s : string) : list string :=
  match s with
  | EmptyString => [""]
  | String c rest =>
      if Ascii.eqb c sep then "" :: split_on sep rest
      else match split_on sep rest with
           | [] => [String c ""]
           | part :: parts => String c part :: parts
           end
  end.

(** [c in s] for a character [c]. *)
Fixpoint contains (c : ascii) (s : string) : bool :=
  match s with
  | EmptyString => false
  | String c' rest => Ascii.eqb c' c || contains c rest
  end.

(** [s * n]. *)
Fixpoint repeat_str (s : string) (n : nat) : string :=
  match n with
  | O => ""
  | S n' => s ++ repeat_str s n'
  end.

(** [sep.join(parts)]. *)
Definition join (sep : string) (parts : list string) : string :=
  String.concat sep parts.

(** [str(n)] for an int. *)
Definition string_of_Z (z : Z) : string :=
  NilZero.string_of_int (Z.to_int z).

Fixpoint commas_rev (digits : list ascii) (k : nat) : list ascii :=
  match digits with
  | [] => []
  | d :: rest =>
      match k, rest with
      | 2%nat, _ :: _ => d :: ","%char :: commas_rev rest 0
      | _, _ => d :: commas_rev rest (S k)
      end
  end.

(** [format(n, ",")]: the digits in groups of three. *)
Definition format_thousands (z : Z) : string :=
  let digits := list_ascii_of_string (string_of_Z (Z.abs z)) in
  let grouped := string_of_list_ascii (rev (commas_rev (rev digits) 0)) in
  if z <? 0 then "-" ++ grouped else grouped.

(** [s.upper()] for an ASCII string. *)
Definition upper_char (c : ascii) : ascii :=
  let n := nat_of_ascii c in
  if ((97 <=? n) && (n <=? 122))%nat then ascii_of_nat (n - 32) else c.
Fixpoint upper (s : string) : string :=
  match s with
  | EmptyString => EmptyString
  | String c rest => String (upper_char c) (upper rest)
  end.

(** [key in table] and [table[key]] for a dict written as a literal. *)
Fixpoint lookup_key {A} (key : string) (table : list (string * A))
  : option A :=
  match table with
  | [] => None
  | (k, v) :: rest => if String.eqb k key then Some v else lookup_key key rest
  end.

(** [str.isspace] of a code point: the characters [str.split()] splits
    at. *)
Definition isspace (c : N) : bool :=
  ((9 <=? c) && (c <=? 13) || (28 <=? c) && (c <=? 32) || (c =? 133)
   || (c =? 160) || (c =? 5760) || (8192 <=? c) && (c <=? 8202)
   || (c =? 8232) || (c =? 8233) || (c =? 8239) || (c =? 8287)
   || (c =? 12288))%N.

(** [content.split()]: the maximal runs without whitespace; [word] holds
    the run being read, latest character first. *)
Fixpoint split_whitespace (word : text) (content : text) : list text :=
  match content with
  | [] => match word with [] => [] | _ => [rev word] end
  | c :: rest =>
      if isspace c then
        match word with
        | [] => split_whitespace [] rest
        | _ => rev word :: split_whitespace [] rest
        end
      else split_whitespace (c :: word) rest
  end.

(** The errors the runtime itself raises in the code below; the text of
    their messages is the runtime's. *)
Variant builtin_error :=
| BadFloatLiteral (s : string)   (* float(s) *)
| IntTooLargeForFloat            (* an int operand of a float operation *)
| FloatDivisionByZero
| ComplexDivisionByZero
| IntegerDivisionByZero
| FloatNaNToInt                  (* int(nan) *)
| FloatInfinityToInt             (* int(inf) *)
| ComplexToInt.                  (* int(z) for a complex z *)

(** What the embedded code takes from the Python runtime and does not
    define itself: binary64 arithmetic, the conversions between [str],
    [int] and [float], and the Unicode-aware methods of [str]. *)
Class PyRuntime := {
  pyfloat : Type;
  float_of_str : string -> option pyfloat;  (* float(s); None: ValueError *)
  float_of_int : Z -> pyfloat;              (* for an int that fits *)
  int_fits_float : Z -> bool;               (* else OverflowError *)
  fsub : pyfloat -> pyfloat -> pyfloat;
  fmul : pyfloat -> pyfloat -> pyfloat;
  fdiv : pyfloat -> pyfloat -> pyfloat;     (* for a divisor that is not 0 *)
  fis_zero : pyfloat -> bool;               (* x == 0 *)
  fis_nan : pyfloat -> bool;
  fis_inf : pyfloat -> bool;
  fpow_half : pyfloat -> option pyfloat;    (* x ** 0.5; None: complex *)
  ftrunc : pyfloat -> Z;                    (* int(x) for a finite x *)
  format_1f : pyfloat -> string;            (* format(x, ".1f") *)
  lit_0_5 : pyfloat;                        (* the literal 0.5 *)
  lit_1_2 : pyfloat;                        (* the literal 1.2 *)
  str_lower : string -> string;             (* s.lower() *)
  str_strip : string -> string;             (* s.strip() *)
  builtin_msg : builtin_error -> string     (* str(e) *)
}.

(** ** [scripts/estimate_pages.py] *)

Module EstimatePages.

Record PageEstimate := mkPageEstimate {
  estimated_pages : Z;
  word_count : Z;
  character_count : Z;
  chars_per_page : Z;
  confidence : string;
  assumptions : list string
}.

(** Common page sizes in points. *)
Definition PAGE_SIZES : list (string * (Z * Z)) :=
  [("letter", (612, 792));
   ("legal", (612, 1008));
   ("6x9", (432, 648));
   ("5x8", (360, 576));
   ("a4", (595, 842));
   ("a5", (420, 595))].

Section WithRuntime.
Context {py : PyRuntime}.

(** A page dimension is an int (a named size) or a float (a custom one). *)
Variant number :=
| Int (z : Z)
| Float (f : pyfloat).

(** The float a number stands for when it meets a float in an operation. *)
Definition to_float (n : number) : Exc pyfloat :=
  match n with
  | Int z =>
      if int_fits_float z then Returned (float_of_int z)
      else Raised (OverflowError (builtin_msg IntTooLargeForFloat))
  | Float f => Returned f
  end.

(** [n * x] for an int [n] and a float [x]. *)
Definition mul_int_float (n : Z) (x : pyfloat) : Exc pyfloat :=
  exc_bind (to_float (Int n)) (fun f => Returned (fmul f x)).

(** [float(s) * 72]: inches to points. *)
Definition points (inches : pyfloat) : pyfloat :=
  fmul inches (float_of_int 72).

Definition parse_page_size (size_str : string) : Exc (number * number) :=
  let size_str := str_strip (str_lower size_str) in
  let invalid :=
    Raised (ValueError ("Invalid page size: " ++ size_str ++ ". "
      ++ "Use named size (letter, 6x9, etc.) or WxH format (6x9, 8.5x11)")) in
  match lookup_key size_str PAGE_SIZES with
  | Some (width, height) => Returned (Int width, Int height)
  | None =>
      if contains "x" size_str then
        match split_on "x" size_str with
        | [part0; part1] =>
            match float_of_str part0 with
            | Some w =>
                match float_of_str part1 with
                | Some h => Returned (Float (points w), Float (points h))
                | None => invalid
                end
            | None => invalid
            end
        | _ => invalid
        end
      else invalid
  end.

Record Margins := mkMargins {
  top : pyfloat;
  bottom : pyfloat;
  left : pyfloat;
  right : pyfloat
}.

(** [[float(x) * 72 for x in parts]]: the first part that is not a float
    raises. *)
Fixpoint parse_parts (parts : list string) : Exc (list pyfloat) :=
  match parts with
  | [] => Returned []
  | x :: rest =>
      match float_of_str x with
      | None => Raised (ValueError (builtin_msg (BadFloatLiteral x)))
      | Some f =>
          exc_bind (parse_parts rest) (fun fs => Returned (points f :: fs))
      end
  end.

Definition parse_margins (margin_str : string) : Exc Margins :=
  exc_bind (parse_parts (split_on "," margin_str)) (fun parts =>
    match parts with
    | [margin] =>
        Returned {| top := margin; bottom := margin; left := margin;
                    right := margin |}
    | [p0; p1] =>
        Returned {| top := p0; bottom := p0; left := p1; right := p1 |}
    | [p0; p1; p2; p3] =>
        Returned {| top := p0; bottom := p1; left := p2; right := p3 |}
    | _ =>
        Raised (ValueError ("Invalid margin format. Use: single value, "
          ++ "two values (TB,LR), or four values (T,B,L,R)"))
    end).

Definition calculate_text_area (page_size : number * number)
    (margins : Margins) : Exc pyfloat :=
  let '(width, height) := page_size in
  exc_bind (to_float width) (fun w =>
  let text_width := fsub (fsub w (left margins)) (right margins) in
  exc_bind (to_float height) (fun h =>
  let text_height := fsub (fsub h (top margins)) (bottom margins) in
  Returned (fmul text_width text_height))).

(** A value that is a float or, after [x ** 0.5] of a negative [x], a
    complex number; of a complex number only the type matters below. *)
Variant scalar :=
| Real (f : pyfloat)
| Complex.

(** [a / b] where [b] is a float. *)
Definition div_by_float (a : scalar) (b : pyfloat) : Exc scalar :=
  match a with
  | Real x =>
      if fis_zero b
      then Raised (ZeroDivisionError (builtin_msg FloatDivisionByZero))
      else Returned (Real (fdiv x b))
  | Complex =>
      if fis_zero b
      then Raised (ZeroDivisionError (builtin_msg ComplexDivisionByZero))
      else Returned Complex
  end.

(** [a / b] where [a] is a float; a complex [b] is never 0 here. *)
Definition div_float_by (a : pyfloat) (b : scalar) : Exc scalar :=
  match b with
  | Real y => div_by_float (Real a) y
  | Complex => Returned Complex
  end.

Definition mul_scalar (a b : scalar) : scalar :=
  match a, b with
  | Real x, Real y => Real (fmul x y)
  | _, _ => Complex
  end.

(** [int(a)]. *)
Definition int_of_scalar (a : scalar) : Exc Z :=
  match a with
  | Complex => Raised (TypeError (builtin_msg ComplexToInt))
  | Real x =>
      if fis_nan x then Raised (ValueError (builtin_msg FloatNaNToInt))
      else if fis_inf x
      then Raised (OverflowError (builtin_msg FloatInfinityToInt))
      else Returned (ftrunc x)
  end.

Definition pow_half (x : pyfloat) : scalar :=
  match fpow_half x with
  | Some y => Real y
  | None => Complex
  end.

(** [leading if leading is not None else font_size * 1.2]. *)
Definition default_leading (font_size : Z) (leading : option pyfloat)
  : Exc pyfloat :=
  match leading with
  | None => mul_int_float font_size lit_1_2
  | Some l => Returned l
  end.

Definition estimate_chars_per_page (text_area : pyfloat) (font_size : Z)
    (leading : option pyfloat) : Exc Z :=
  exc_bind (default_leading font_size leading) (fun leading =>
  exc_bind (mul_int_float font_size lit_0_5) (fun char_width =>
  let text_width := pow_half text_area in
  exc_bind (div_by_float text_width char_width) (fun chars_per_line =>
  exc_bind (div_float_by text_area text_width) (fun text_height =>
  exc_bind (div_by_float text_height leading) (fun lines_per_page =>
  int_of_scalar (mul_scalar chars_per_line lines_per_page)))))).

(** [len(content.split())] and [len(content)]. *)
Definition counts (content : text) : Z * Z :=
  (Z.of_nat (length (split_whitespace [] content)),
   Z.of_nat (length content)).

Definition count_text (file_path : string) : Prog (Exc (Z * Z)) :=
  r <- trigger (ReadText file_path "utf-8") ;;
  match r with
  | Returned content => Ret (Returned (counts content))
  | Raised (UnicodeDecodeError _) =>
      content <-? trigger (ReadText file_path "latin-1") ;;
      Ret (Returned (counts content))
  | Raised e => Ret (Raised e)
  end.

(** [(a + b - 1) // b]. *)
Definition pages_needed (char_count chars_per_page : Z) : Exc Z :=
  if chars_per_page =? 0
  then Raised (ZeroDivisionError (builtin_msg IntegerDivisionByZero))
  else Returned ((char_count + chars_per_page - 1) / chars_per_page).

(** [leading or font_size * 1.2]. *)
Definition leading_or_default (font_size : Z) (leading : option pyfloat)
  : Exc pyfloat :=
  match leading with
  | Some l => if fis_zero l then mul_int_float font_size lit_1_2
              else Returned l
  | None => mul_int_float font_size lit_1_2
  end.

Definition estimate_pages (text_file page_size : string) (font_size : Z)
    (margins : string) (leading : option pyfloat)
  : Prog (Exc PageEstimate) :=
  page_dims <-? Ret (parse_page_size page_size) ;;
  margin_dict <-? Ret (parse_margins margins) ;;
  wc <-? count_text text_file ;;
  text_area <-? Ret (calculate_text_area page_dims margin_dict) ;;
  cpp <-? Ret (estimate_chars_per_page text_area font_size leading) ;;
  pages <-? Ret (pages_needed (snd wc) cpp) ;;
  let estimated := Z.max 1 pages in
  shown_leading <-? Ret (leading_or_default font_size leading) ;;
  char_width <-? Ret (mul_int_float font_size lit_0_5) ;;
  let assumptions :=
    ["Font size: " ++ string_of_Z font_size ++ "pt";
     "Leading: " ++ format_1f shown_leading ++ "pt";
     "Average char width: " ++ format_1f char_width ++ "pt";
     "Assumes standard paragraph spacing"] in
  let '(confidence, assumptions) :=
    if (font_size <? 10) || (14 <? font_size) then
      ("medium",
       (assumptions ++ ["Unusual font size may affect accuracy"])%list)
    else if negb (bool_decide (is_Some (lookup_key page_size PAGE_SIZES)))
    then
      ("medium",
       (assumptions ++ ["Custom page size may affect accuracy"])%list)
    else ("high", assumptions) in
  Ret (Returned {| estimated_pages := estimated;
                   word_count := fst wc;
                   character_count := snd wc;
                   chars_per_page := cpp;
                   confidence := confidence;
                   assumptions := assumptions |}).

(** [str(e)]. *)
Definition exn_str (e : exn) : string :=
  match e with
  | ValueError msg | ZeroDivisionError msg | TypeError msg
  | OverflowError msg | UnicodeDecodeError msg | UnicodeEncodeError msg
  | OSError msg | TransportError _ msg | UsageError msg => msg
  end.

(** The parsed command line: [--text-file] (as the path it names),
    [--page-size], [--font-size], [--margins], [--leading]. *)
Record Namespace := mkNamespace {
  text_file : string;
  page_size : string;
  font_size : Z;
  margins : string;
  leading : option pyfloat
}.

Definition rule : string := repeat_str "=" 50.

Fixpoint print_assumptions (items : list string) : Prog (Exc unit) :=
  match items with
  | [] => Ret (Returned tt)
  | a :: rest => print ("  • " ++ a) ;;? print_assumptions rest
  end.

Definition main (args : Namespace) : Prog (Exc Z) :=
  present <-? trigger (PathExists (text_file args)) ;;
  if negb present then
    print_err ("Error: File not found: " ++ text_file args) ;;
    Ret (Returned 1)
  else
    r <- estimate_pages (text_file args) (page_size args) (font_size args)
           (margins args) (leading args) ;;
    match r with
    | Raised e =>
        print_err ("Error during estimation: " ++ exn_str e) ;;
        Ret (Returned 1)
    | Returned estimate =>
        print "InDesign Page Count Estimation" ;;?
        print rule ;;?
        print ("
Input File: " ++ text_file args) ;;?
        print ("Page Size: " ++ page_size args) ;;?
        print ("Font Size: " ++ string_of_Z (font_size args) ++ "pt") ;;?
        print ("Margins: " ++ margins args ++ " inches") ;;?
        print ("
" ++ rule) ;;?
        print "RESULTS" ;;?
        print rule ;;?
        print ("
📄 Estimated Pages: " ++ string_of_Z (estimated_pages estimate)) ;;?
        print ("📝 Word Count: " ++ format_thousands (word_count estimate)) ;;?
        print ("🔤 Character Count: "
               ++ format_thousands (character_count estimate)) ;;?
        print ("📏 Characters per Page: ~"
               ++ format_thousands (chars_per_page estimate)) ;;?
        print ("🎯 Confidence: " ++ upper (confidence estimate)) ;;?
        print "
Assumptions:" ;;?
        print_assumptions (assumptions estimate) ;;?
        print ("
" ++ rule) ;;?
        print "Note: Actual page count may vary based on:" ;;?
        print "  - Actual font used (proportional vs monospace)" ;;?
        print "  - Paragraph spacing and indentation" ;;?
        print "  - Images or other non-text elements" ;;?
        print "  - Chapter breaks and section starts" ;;?
        print rule ;;?
        Ret (Returned 0)
    end.

End WithRuntime.

End EstimatePages.

(** [x in xs] for strings. *)
Definition mem (x : string) (xs : list string) : bool :=
  existsb (String.eqb x) xs.

Fixpoint print_items (bullet : string) (items : list string)
  : Prog (Exc unit) :=
  match items with
  | [] => Ret (Returned tt)
  | item :: rest => print (bullet ++ item) ;;? print_items bullet rest
  end.

(** [if items: print(title); for item in items: print(bullet + item)]. *)
Definition print_section (title bullet : string) (items : list string)
  : Prog (Exc unit) :=
  match items with
  | [] => Ret (Returned tt)
  | _ => print title ;;? print_items bullet items
  end.

(** ** [scripts/preflight_pdf.py] *)

Module PreflightPdf.

Record PreflightResult := mkPreflightResult {
  passed : bool;
  warnings : list string;
  errors : list string;
  recommendations : list string
}.

Record PresetInfo := mkPresetInfo {
  color_space : string;
  min_resolution : Z;
  output_types : list string;
  description : string
}.

(** Preset database with recommended settings. *)
Definition PRESET_INFO : list (string * PresetInfo) :=
  [("[High Quality Print]",
    {| color_space := "CMYK"; min_resolution := 300;
       output_types := ["print"];
       description := "CMYK, 300dpi, for commercial printing" |});
   ("[Press Quality]",
    {| color_space := "CMYK"; min_resolution := 300;
       output_types := ["print"; "commercial"];
       description := "CMYK, 300dpi, PDF/X-1a compliant" |});
   ("[Smallest File Size]",
    {| color_space := "RGB"; min_resolution := 72;
       output_types := ["digital"; "web"; "email"];
       description := "RGB, 72dpi, for digital distribution" |});
   ("[PDF/X-4:2008]",
    {| color_space := "CMYK"; min_resolution := 300;
       output_types := ["print"; "commercial"; "pod"];
       description := "Modern press standard, CMYK, 300dpi" |})].

(** [len(errors) == 0]. *)
Definition no_errors (errors : list string) : bool :=
  Nat.eqb (length errors) 0.

Definition check_preset_exists (preset_name : string) (mcp_available : bool)
  : PreflightResult :=
  let warnings : list string := [] in
  let errors : list string := [] in
  let recommendations : list string := [] in
  if negb mcp_available then
    let warnings :=
      (warnings
       ++ ["MCP tools not available - cannot verify preset exists"])%list in
    {| passed := true; warnings := warnings; errors := errors;
       recommendations := recommendations |}
  else
    (* placeholder for the MCP integration: nothing is checked *)
    {| passed := no_errors errors; warnings := warnings; errors := errors;
       recommendations := recommendations |}.

Definition check_preset_match (preset_name output_type : string)
  : PreflightResult :=
  match lookup_key preset_name PRESET_INFO with
  | None =>
      {| passed := true;
         warnings :=
           [("Preset '" ++ preset_name
             ++ "' not in known presets database")%string;
            "Unable to validate appropriateness for output type"];
         errors := [];
         recommendations := [] |}
  | Some preset_info =>
      let recommended_types := output_types preset_info in
      let '(errors, recommendations) :=
        if negb (mem output_type recommended_types) then
          let errors :=
            [("Preset '" ++ preset_name ++ "' not recommended for '"
              ++ output_type ++ "' output")%string;
             ("This preset is for: "
              ++ join ", " recommended_types)%string] in
          let better_presets :=
            map fst
              (filter (fun entry => mem output_type (output_types (snd entry)))
                 PRESET_INFO) in
          match better_presets with
          | [] => (errors, [])
          | _ =>
              (errors,
               [("Consider using: " ++ join ", " better_presets)%string])
          end
        else ([], []) in
      {| passed := no_errors errors; warnings := []; errors := errors;
         recommendations := recommendations |}
  end.

Definition print_types : list string := ["print"; "commercial"; "pod"].
Definition digital_types : list string := ["digital"; "web"; "email"].

Definition check_color_space (preset_name output_type : string)
  : PreflightResult :=
  match lookup_key preset_name PRESET_INFO with
  | None =>
      {| passed := true;
         warnings := ["Cannot validate color space - preset unknown"];
         errors := [];
         recommendations := [] |}
  | Some preset_info =>
      let preset_color := color_space preset_info in
      (* print requires CMYK *)
      let '(errors, recommendations) :=
        if mem output_type print_types
           && negb (String.eqb preset_color "CMYK") then
          ([("Color space mismatch: Preset uses " ++ preset_color ++ ", "
             ++ "but " ++ output_type ++ " requires CMYK")%string],
           ["Use a preset with CMYK color space for print output"])
        else ([], []) in
      (* digital prefers RGB *)
      let warnings :=
        if mem output_type digital_types
           && negb (String.eqb preset_color "RGB") then
          [("Color space note: Preset uses " ++ preset_color ++ ", "
            ++ "but RGB is typical for " ++ output_type)%string]
        else [] in
      {| passed := no_errors errors; warnings := warnings; errors := errors;
         recommendations := recommendations |}
  end.

Definition check_resolution (preset_name output_type : string)
  : PreflightResult :=
  match lookup_key preset_name PRESET_INFO with
  | None =>
      {| passed := true;
         warnings := ["Cannot validate resolution - preset unknown"];
         errors := [];
         recommendations := [] |}
  | Some preset_info =>
      let preset_resolution := min_resolution preset_info in
      (* print requires 300dpi minimum *)
      let '(errors, recommendations) :=
        if mem output_type print_types && (preset_resolution <? 300) then
          ([("Resolution too low: Preset is "
             ++ string_of_Z preset_resolution ++ "dpi, "
             ++ "but " ++ output_type ++ " requires 300dpi minimum")%string],
           ["Use [High Quality Print] or [Press Quality]"])
        else ([], []) in
      (* digital can use lower resolution *)
      let warnings :=
        if mem output_type digital_types && (150 <? preset_resolution) then
          [("Resolution may be higher than needed: "
            ++ string_of_Z preset_resolution ++ "dpi "
            ++ "for " ++ output_type ++ " (72-150dpi typical)")%string;
           "This will result in larger file size"]
        else [] in
      {| passed := no_errors errors; warnings := warnings; errors := errors;
         recommendations := recommendations |}
  end.

(** The values [--output-type] accepts. *)
Definition OUTPUT_TYPE_CHOICES : list string :=
  ["print"; "digital"; "web"; "email"; "commercial"; "pod"].

(** The parsed command line: [--preset] and [--output-type]. *)
Record Namespace := mkNamespace {
  preset : string;
  output_type : string
}.

(** What the parser lets through. *)
Definition accepted (args : Namespace) : Prop :=
  In (output_type args) OUTPUT_TYPE_CHOICES.

(** [bool(result.warnings)]. *)
Definition nonempty {A} (l : list A) : bool :=
  match l with [] => false | _ => true end.

(** The two flags of [main] after one more check. *)
Definition account (flags : bool * bool) (result : PreflightResult)
  : bool * bool :=
  let '(all_passed, has_warnings) := flags in
  (if negb (passed result) then false else all_passed,
   if nonempty (warnings result) then true else has_warnings).

Definition rule : string := repeat_str "=" 60.

Fixpoint print_summary (results : list (string * PreflightResult))
  : Prog (Exc unit) :=
  match results with
  | [] => Ret (Returned tt)
  | (check_name, result) :: rest =>
      let status := if passed result then "✓ PASS" else "✗ FAIL" in
      print ("
" ++ check_name ++ ": " ++ status) ;;?
      print_section "  Errors:" "    - " (errors result) ;;?
      print_section "  Warnings:" "    - " (warnings result) ;;?
      print_section "  Recommendations:" "    → " (recommendations result) ;;?
      print_summary rest
  end.

Definition main (args : Namespace) : Prog (Exc Z) :=
  print "InDesign PDF Export Pre-Flight Check" ;;?
  print rule ;;?
  print ("Preset: " ++ preset args) ;;?
  print ("Output Type: " ++ output_type args) ;;?
  print rule ;;?
  (* whether the MCP tools are available: a placeholder *)
  let mcp_available := false in
  let results : list (string * PreflightResult) := [] in
  let flags := (true, false) in
  print "
[1/4] Checking preset exists in document..." ;;?
  let result := check_preset_exists (preset args) mcp_available in
  let results := (results ++ [("Preset Existence", result)])%list in
  let flags := account flags result in
  print "
[2/4] Checking preset matches output type..." ;;?
  let result := check_preset_match (preset args) (output_type args) in
  let results := (results ++ [("Preset Match", result)])%list in
  let flags := account flags result in
  print "
[3/4] Checking color space..." ;;?
  let result := check_color_space (preset args) (output_type args) in
  let results := (results ++ [("Color Space", result)])%list in
  let flags := account flags result in
  print "
[4/4] Checking resolution..." ;;?
  let result := check_resolution (preset args) (output_type args) in
  let results := (results ++ [("Resolution", result)])%list in
  let flags := account flags result in
  print ("
" ++ rule) ;;?
  print "PRE-FLIGHT SUMMARY" ;;?
  print rule ;;?
  print_summary results ;;?
  print ("
" ++ rule) ;;?
  let '(all_passed, has_warnings) := flags in
  if all_passed && negb has_warnings then
    print "✓ Pre-flight passed - safe to export" ;;?
    Ret (Returned 0)
  else if all_passed && has_warnings then
    print "⚠ Pre-flight passed with warnings - export possible but not optimal" ;;?
    Ret (Returned 10)
  else
    print "✗ Pre-flight failed - export not recommended" ;;?
    print "
Fix the errors above before exporting." ;;?
    Ret (Returned 11).

End PreflightPdf.

(** ** [scripts/validate_document.py] *)

Module ValidateDocument.

Record ValidationResult := mkValidationResult {
  passed : bool;
  warnings : list string;
  errors : list string;
  details : dict
}.

Definition no_errors (errors : list string) : bool :=
  Nat.eqb (length errors) 0.

(** The result of a check when the MCP tools are not available. *)
Definition unavailable (what : string) : ValidationResult :=
  {| passed := true;
     warnings := [("MCP tools not available - cannot check " ++ what)%string];
     errors := [];
     details := [("mcp_available", VBool false)] |}.

(** Each check is a placeholder for the MCP integration: with the tools
    available it looks at nothing and reports zero counts. *)
Definition check_overflow (mcp_available : bool) : ValidationResult :=
  if negb mcp_available then unavailable "overflow"
  else
    let errors : list string := [] in
    {| passed := no_errors errors; warnings := []; errors := errors;
       details := [("pages_checked", VInt 0); ("frames_checked", VInt 0);
                   ("overflow_found", VInt 0)] |}.

Definition check_fonts (mcp_available : bool) : ValidationResult :=
  if negb mcp_available then unavailable "fonts"
  else
    let errors : list string := [] in
    {| passed := no_errors errors; warnings := []; errors := errors;
       details := [("fonts_used", VInt 0); ("fonts_missing", VInt 0);
                   ("fonts_substituted", VInt 0)] |}.

Definition check_styles (mcp_available : bool) : ValidationResult :=
  if negb mcp_available then unavailable "styles"
  else
    let errors : list string := [] in
    {| passed := no_errors errors; warnings := []; errors := errors;
       details := [("paragraph_styles", VInt 0); ("character_styles", VInt 0);
                   ("undefined_styles", VInt 0)] |}.

Definition check_bounds (mcp_available : bool) : ValidationResult :=
  if negb mcp_available then unavailable "bounds"
  else
    let errors : list string := [] in
    {| passed := no_errors errors; warnings := []; errors := errors;
       details := [("frames_checked", VInt 0);
                   ("frames_out_of_bounds", VInt 0)] |}.

(** The parsed command line: the five flags. *)
Record Namespace := mkNamespace {
  arg_check_overflow : bool;
  arg_check_fonts : bool;
  arg_check_styles : bool;
  arg_check_bounds : bool;
  arg_all : bool
}.

Definition nonempty {A} (l : list A) : bool :=
  match l with [] => false | _ => true end.

(** The results so far and the flags [all_passed] and [has_warnings]. *)
Record Progress := mkProgress {
  results : list (string * ValidationResult);
  all_passed : bool;
  has_warnings : bool
}.

(** One of the four blocks of [main]: when the check is asked for,
    announce it, run it, record its result and update the flags. *)
Definition block (asked : bool) (banner check_name : string)
    (check : bool -> ValidationResult) (mcp_available : bool)
    (st : Progress) : Prog (Exc Progress) :=
  if asked then
    print banner ;;?
    let result := check mcp_available in
    Ret (Returned
           {| results := (results st ++ [(check_name, result)])%list;
              all_passed :=
                if negb (passed result) then false else all_passed st;
              has_warnings :=
                if nonempty (warnings result) then true
                else has_warnings st |})
  else Ret (Returned st).

Definition rule : string := repeat_str "=" 50.

Fixpoint print_summary (results : list (string * ValidationResult))
  : Prog (Exc unit) :=
  match results with
  | [] => Ret (Returned tt)
  | (check_name, result) :: rest =>
      let status := if passed result then "✓ PASS" else "✗ FAIL" in
      print ("
" ++ check_name ++ ": " ++ status) ;;?
      print_section "  Errors:" "    - " (errors result) ;;?
      print_section "  Warnings:" "    - " (warnings result) ;;?
      print_summary rest
  end.

Definition main (args : Namespace) : Prog (Exc Z) :=
  (* with no check asked for, run them all *)
  let all :=
    if negb (arg_check_overflow args || arg_check_fonts args
             || arg_check_styles args || arg_check_bounds args
             || arg_all args)
    then true else arg_all args in
  (* whether the MCP tools are available: a placeholder *)
  let mcp_available := false in
  let st :=
    {| results := []; all_passed := true; has_warnings := false |} in
  print "InDesign Document Validation" ;;?
  print rule ;;?
  st <-? block (all || arg_check_overflow args)
          "
[1/4] Checking for text overflow..." "Overflow Check"
          check_overflow mcp_available st ;;
  st <-? block (all || arg_check_fonts args)
          "
[2/4] Checking fonts..." "Font Check" check_fonts mcp_available st ;;
  st <-? block (all || arg_check_styles args)
          "
[3/4] Checking styles..." "Style Check" check_styles mcp_available st ;;
  st <-? block (all || arg_check_bounds args)
          "
[4/4] Checking frame bounds..." "Bounds Check"
          check_bounds mcp_available st ;;
  print ("
" ++ rule) ;;?
  print "VALIDATION SUMMARY" ;;?
  print rule ;;?
  print_summary (results st) ;;?
  print ("
" ++ rule) ;;?
  if all_passed st && negb (has_warnings st) then
    print "✓ All checks passed" ;;?
    Ret (Returned 0)
  else if all_passed st && has_warnings st then
    print "⚠ Checks passed with warnings" ;;?
    Ret (Returned 10)
  else
    print "✗ Validation failed" ;;?
    Ret (Returned 11).

End ValidateDocument.

(** ** An instance of the runtime: binary64 floats and ASCII strings *)

(** The IEEE 754 binary64 arithmetic of the kernel, which is the one
    CPython's [float] has.  The string functions are those of ASCII text
    and [float_of_str] reads plain decimal literals ([12], [0.75], [-3.5]):
    enough to run the definitions on concrete command lines.

    [x ** 0.5] is the one operation this instance only approximates.
    CPython computes it with the [pow] of the C library, which is not
    specified to the last bit; the instance takes the correctly rounded
    square root instead, which can differ from it in the last bit (at
    716040.0 it does), so that the characters per page computed from it
    can be off by one.  What it returns for a negative or infinite [x] (a
    complex number, infinity) is exact.  The instance serves to run the definitions
    below on concrete inputs, on which its results were compared with
    CPython 3.11; the properties of the estimator are proved for every
    runtime. *)
Module Binary64.

Definition of_Z (z : Z) : PrimFloat.float :=
  SF2Prim (binary_normalize prec emax z 0 false).

Definition is_digit (c : ascii) : bool :=
  let n := nat_of_ascii c in ((48 <=? n) && (n <=? 57))%nat.

(** The number a string of digits writes, after the digits read so far. *)
Fixpoint digits_value (acc : Z) (s : string) : option Z :=
  match s with
  | EmptyString => Some acc
  | String c rest =>
      if is_digit c
      then digits_value (10 * acc + Z.of_nat (nat_of_ascii c - 48)) rest
      else None
  end.

Definition unsigned_literal (s : string) : option PrimFloat.float :=
  match split_on "." s with
  | [whole] =>
      if (String.length whole =? 0)%nat then None
      else option_map of_Z (digits_value 0 whole)
  | [whole; frac] =>
      if (String.length whole + String.length frac =? 0)%nat then None
      else
        match digits_value 0 (whole ++ frac) with
        | Some m =>
            Some (PrimFloat.div (of_Z m)
                    (of_Z (10 ^ Z.of_nat (String.length frac))))
        | None => None
        end
  | _ => None
  end.

Definition parse_literal (s : string) : option PrimFloat.float :=
  match s with
  | String "-" rest => option_map PrimFloat.opp (unsigned_literal rest)
  | String "+" rest => unsigned_literal rest
  | _ => unsigned_literal s
  end.

(** [x ** 0.5]: nan for nan, infinity for the two infinities, a complex
    number for a finite negative [x]. *)
Definition pow_half (x : PrimFloat.float) : option PrimFloat.float :=
  if PrimFloat.is_nan x then Some x
  else if PrimFloat.is_infinity x then Some PrimFloat.infinity
  else if PrimFloat.ltb x PrimFloat.zero then None
  else Some (PrimFloat.abs (PrimFloat.sqrt x)).

(** The integer part of a finite float. *)
Definition trunc (x : PrimFloat.float) : Z :=
  match Prim2SF x with
  | S754_finite s m e =>
      let magnitude :=
        match e with
        | Zneg p => Z.shiftr (Zpos m) (Zpos p)
        | _ => Z.shiftl (Zpos m) e
        end in
      if s then - magnitude else magnitude
  | _ => 0
  end.

(** [round(10 * |x|)] of a finite float, ties to even, computed on the
    exact value. *)
Definition tenths (x : PrimFloat.float) : Z :=
  match Prim2SF x with
  | S754_finite _ m e =>
      match e with
      | Zneg p =>
          let num := 10 * Zpos m in
          let den := 2 ^ Zpos p in
          let q := num / den in
          let r := num mod den in
          if 2 * r <? den then q
          else if den <? 2 * r then q + 1
          else if Z.even q then q else q + 1
      | _ => 10 * Z.shiftl (Zpos m) e
      end
  | _ => 0
  end.

Definition is_negative (x : PrimFloat.float) : bool :=
  match Prim2SF x with
  | S754_zero s | S754_infinity s | S754_finite s _ _ => s
  | S754_nan => false
  end.

Definition one_decimal (x : PrimFloat.float) : string :=
  if PrimFloat.is_nan x then "nan"
  else
    let sign := if is_negative x then "-" else "" in
    if PrimFloat.is_infinity x then sign ++ "inf"
    else
      let t := tenths x in
      sign ++ string_of_Z (t / 10) ++ "." ++ string_of_Z (t mod 10).

Definition lower_char (c : ascii) : ascii :=
  let n := nat_of_ascii c in
  if ((65 <=? n) && (n <=? 90))%nat then ascii_of_nat (n + 32) else c.

Fixpoint lower (s : string) : string :=
  match s with
  | EmptyString => EmptyString
  | String c rest => String (lower_char c) (lower rest)
  end.

Definition is_space_char (c : ascii) : bool :=
  isspace (N.of_nat (nat_of_ascii c)) && (nat_of_ascii c <? 128)%nat.

Fixpoint lstrip (s : string) : string :=
  match s with
  | EmptyString => EmptyString
  | String c rest => if is_space_char c then lstrip rest else s
  end.

(** [s] without its trailing whitespace. *)
Fixpoint rstrip (s : string) : string :=
  match s with
  | EmptyString => EmptyString
  | String c rest =>
      match rstrip rest with
      | EmptyString => if is_space_char c then EmptyString else String c ""
      | kept => String c kept
      end
  end.

Definition strip (s : string) : string := rstrip (lstrip s).

Definition message (e : builtin_error) : string :=
  match e with
  | BadFloatLiteral s => "could not convert string to float: '" ++ s ++ "'"
  | IntTooLargeForFloat => "int too large to convert to float"
  | FloatDivisionByZero => "float division by zero"
  | ComplexDivisionByZero => "complex division by zero"
  | IntegerDivisionByZero => "integer division or modulo by zero"
  | FloatNaNToInt => "cannot convert float NaN to integer"
  | FloatInfinityToInt => "cannot convert float infinity to integer"
  | ComplexToInt =>
      "int() argument must be a string, a bytes-like object or a real "
      ++ "number, not 'complex'"
  end.

#[export] Instance runtime : PyRuntime := {|
  pyfloat := PrimFloat.float;
  float_of_str := parse_literal;
  float_of_int := of_Z;
  int_fits_float := fun z => negb (PrimFloat.is_infinity (of_Z z));
  fsub := PrimFloat.sub;
  fmul := PrimFloat.mul;
  fdiv := PrimFloat.div;
  fis_zero := PrimFloat.is_zero;
  fis_nan := PrimFloat.is_nan;
  fis_inf := PrimFloat.is_infinity;
  fpow_half := pow_half;
  ftrunc := trunc;
  format_1f := one_decimal;
  lit_0_5 := PrimFloat.div (of_Z 1) (of_Z 2);
  lit_1_2 := PrimFloat.div (of_Z 12) (of_Z 10);
  str_lower := lower;
  str_strip := strip;
  builtin_msg := message
|}.

End Binary64.

(** ** Observing programs *)

(** A program that makes no call into the bridge, whatever it is
    answered. *)
Fixpoint quiet {R} (p : Prog R) : Prop :=
  match p with
  | Ret _ => True
  | Vis e k => bridge_call e = None /\ forall x, quiet (k x)
  end.

(** The exception with which the environment answered a call to [print],
    when it did. *)
Definition print_raised {X} (e : Event X) : X -> option exn :=
  match e in Event X return X -> option exn with
  | Print _ => fun x => match x with
                        | Raised ex => Some ex
                        | Returned _ => None
                        end
  | _ => fun _ => None
  end.

(** The first line of a run that the standard output refused, as the
    exception raised for it; none when every line was written. *)
Fixpoint refused {S R} (h : handler S) (p : Prog R) (s : S) : option exn :=
  match p with
  | Ret _ => None
  | Vis e k =>
      let '(x, s') := h _ e s in
      match print_raised e x with
      | Some ex => Some ex
      | None => refused h (k x) s'
      end
  end.

(** Writing a line to the standard output, and nothing else. *)
Definition prints {X} (e : Event X) : Prop :=
  match e with
  | Print _ => True
  | _ => False
  end.

(** A program that writes line after line to the standard output and then
    returns [v]; a line that is refused ends it with the exception raised
    for the line. *)
Fixpoint prints_then {R} (v : R) (p : Prog (Exc R)) : Prop :=
  match p with
  | Ret r => r = Returned v
  | Vis e k =>
      prints e
      /\ forall x, match print_raised e x with
                   | Some ex => k x = Ret (Raised ex)
                   | None => prints_then v (k x)
                   end
  end.

(** An entry of a payload that is a direct mapping: the value of a named
    parameter, or a constant. *)
Variant slot :=
| Param (name : string)
| Const (v : value).

(** The dictionary a template stands for, given the arguments of a call. *)
Definition fill (template : list (string * slot)) (arguments : dict) : dict :=
  map (fun '(key, s) =>
         (key, match s with
               | Param name => default VNull (dict_get name arguments)
               | Const v => v
               end)) template.

(** The parameters a template takes values from, one entry per use. *)
Definition params (template : list (string * slot)) : list string :=
  flat_map (fun '(_, s) => match s with
                           | Param name => [name]
                           | Const _ => []
                           end) template.

(** The first command a program asks the builder for. *)
Definition requested {R} (p : Prog R) : option (string * dict) :=
  match p with
  | Vis (CreateCommand action options) _ => Some (action, options)
  | _ => None
  end.

(** [dispatch(name, parameters)]: build the command, send it, hand back
    what the facade hands back. *)
Definition dispatch (action : string) (options : dict) : Prog (Exc Outcome) :=
  command <-? createCommand action options ;;
  sendCommand command.

(** ** Scenarios *)

Module Scenario.

(** A process that has just started: nothing registered, nothing sent, and
    a standard output that takes every line (a UTF-8 terminal). *)
Definition fresh_world (proxy : Command -> Bridge.Wire)
    (files : gmap string File) : World :=
  {| bridge := Bridge.initial; proxy := proxy; files := files;
     stdout := []; stderr := []; encodes := fun _ => true;
     registered_tools := [] |}.

(** A proxy that answers every command after one second. *)
Definition replies (answer : Body) : Command -> Bridge.Wire :=
  fun command =>
    {| Bridge.reachable := true;
       Bridge.incoming :=
         [(1%N, Bridge.Arrives
                  (Bridge.Decoded
                     {| resp_id := id command; body := answer |}))] |}.

(** A proxy whose connection drops one second after every command. *)
Definition drops : Command -> Bridge.Wire :=
  fun _ =>
    {| Bridge.reachable := true;
       Bridge.incoming := [(1%N, Bridge.ConnectionLost)] |}.

(** A proxy that never replies. *)
Definition silent : Command -> Bridge.Wire :=
  fun _ => {| Bridge.reachable := true; Bridge.incoming := [] |}.

Definition page_count_1 : value := VDict [("pageCount", VInt 1)].

Definition document_not_open : ErrorInfo :=
  {| kind := "DocumentNotOpen"; message := "no document is open" |}.

(** An error a proxy reports under the name the bridge gives its own
    timeouts. *)
Definition proxy_timed_out : ErrorInfo :=
  {| kind := "Timeout"; message := "no reply" |}.

(** The InDesign server once its module is imported. *)
Definition server (proxy : Command -> Bridge.Wire) : World :=
  snd (run world InDesign.module_body (fresh_world proxy ∅)).

Definition indesign_config : EndpointConfig :=
  {| application := "indesign"; address := "http://localhost:3001";
     timeout := 20 |}.

(** The payload [create_document] builds for a page of 612 by 792 points
    and one page, the other arguments at their defaults. *)
Definition create_document_payload : dict :=
  [("intent", VStr "WEB_INTENT");
   ("pageWidth", VInt 612);
   ("pageHeight", VInt 792);
   ("margins", VDict InDesign.default_margins);
   ("columns", VDict InDesign.default_columns);
   ("pagesPerDocument", VInt 1);
   ("facingPages", VBool false)].

(** A manuscript of 5000 characters, one word. *)
Definition manuscript : File :=
  {| as_utf8 := Some (repeat 97%N 5000); as_latin1 := repeat 97%N 5000 |}.

(** A machine with the manuscript on disk and no proxy to talk to. *)
Definition desk : World :=
  fresh_world drops {["manuscript.txt" := manuscript]}.

(** Whether a line is plain ASCII. *)
Fixpoint is_ascii (line : string) : bool :=
  match line with
  | EmptyString => true
  | String c rest => (nat_of_ascii c <? 128)%nat && is_ascii rest
  end.

(** The same machine with the standard output piped to a program that
    reads ASCII ([PYTHONIOENCODING=ascii]). *)
Definition teletype : World :=
  {| bridge := Bridge.initial; proxy := drops;
     files := {["manuscript.txt" := manuscript]};
     stdout := []; stderr := []; encodes := is_ascii;
     registered_tools := [] |}.

End Scenario.

(** ** Further observations *)

(** A program all of whose calls, whatever it is answered, are among the
    allowed ones. *)
Fixpoint only (allowed : forall X, Event X -> Prop) {R} (p : Prog R) : Prop :=
  match p with
  | Ret _ => True
  | Vis e k => allowed _ e /\ forall x, only allowed (k x)
  end.


(** Writing to the two output streams and looking at the one file [path]:
    whether it exists, and its text as UTF-8 or as Latin-1. *)
Definition uses_file (path : string) {X} (e : Event X) : Prop :=
  match e with
  | Print _ | PrintErr _ => True
  | PathExists p => p = path
  | ReadText p encoding =>
      p = path /\ (encoding = "utf-8" \/ encoding = "latin-1")
  | _ => False
  end.

(** The commands a log shows were asked of the builder, in order. *)
Definition creations (log : list BridgeCall) : list (string * dict) :=
  flat_map (fun c => match c with
                     | CallCreateCommand action options => [(action, options)]
                     | _ => []
                     end) log.

(** The commands a log shows were handed to the facade, in order. *)
Definition sendings (log : list BridgeCall) : list Command :=
  flat_map (fun c => match c with
                     | CallSendCommand command => [command]
                     | _ => []
                     end) log.

(** What the page-count estimator reports for the manuscript on a 6 by 9
    inch page in 12 point type with margins of three quarters of an inch. *)
Definition manuscript_estimate : EstimatePages.PageEstimate :=
  {| EstimatePages.estimated_pages := 3;
     EstimatePages.word_count := 1;
     EstimatePages.character_count := 5000;
     EstimatePages.chars_per_page := 2025;
     EstimatePages.confidence := "high";
     EstimatePages.assumptions :=
       ["Font size: 12pt"; "Leading: 14.4pt"; "Average char width: 6.0pt";
        "Assumes standard paragraph spacing"] |}.

(** Whether an estimate is given high confidence: the font size is from 10
    to 14 points and the page size, as it was typed, is a named one. *)
Definition graded (page_size : string) (font_size : Z) : bool :=
  negb ((font_size <? 10) || (14 <? font_size))
  && bool_decide (is_Some (lookup_key page_size EstimatePages.PAGE_SIZES)).


(** * Properties *)

(** ** Running and tracing programs *)

Section Running.
Context {S : Type} (h : handler S).

Lemma run_bind {A B} (p : Prog A) (f : A -> Prog B) (s : S) :
  run h (bind p f) s = run h (f (fst (run h p s))) (snd (run h p s)).
Proof.
  revert s. induction p as [a | X e k IH]; intros s; simpl.
  - reflexivity.
  - destruct (h X e s) as [x s']. apply IH.
Qed.

Lemma trace_bind {A B} (p : Prog A) (f : A -> Prog B) (s : S) :
  trace h (bind p f) s
  = (trace h p s ++ trace h (f (fst (run h p s))) (snd (run h p s)))%list.
Proof.
  revert s. induction p as [a | X e k IH]; intros s; simpl.
  - reflexivity.
  - destruct (h X e s) as [x s']. rewrite IH.
    unfold record_call. destruct (bridge_call e); reflexivity.
Qed.

Lemma quiet_trace {R} (p : Prog R) (s : S) : quiet p -> trace h p s = [].
Proof.
  revert s. induction p as [a | X e k IH]; intros s Hq; simpl.
  - reflexivity.
  - destruct Hq as [He Hk]. destruct (h X e s) as [x s'].
    unfold record_call. rewrite He. apply IH, Hk.
Qed.

Lemma run_trigger {X} (e : Event X) (s : S) : run h (trigger e) s = h X e s.
Proof. simpl. destruct (h X e s). reflexivity. Qed.



(** What a program that only prints returns: its value when every line
    was written, and otherwise the exception raised for the first line
    that was refused. *)
Lemma prints_then_run {R} (v : R) (p : Prog (Exc R)) (s : S) :
  prints_then v p ->
  fst (run h p s)
  = match refused h p s with
    | Some ex => Raised ex
    | None => Returned v
    end.
Proof.
  revert s. induction p as [r | X e k IH]; intros s; simpl.
  - intros ->. reflexivity.
  - intros [_ Hk]. destruct (h X e s) as [x s']. specialize (Hk x).
    destruct (print_raised e x) as [ex |];
      [rewrite Hk; reflexivity | apply IH, Hk].
Qed.

End Running.

Lemma prints_then_bind {A R} (a : A) (v : R) (p : Prog (Exc A))
    (f : A -> Prog (Exc R)) :
  prints_then a p -> prints_then v (f a) -> prints_then v (bind_exc p f).
Proof.
  intros Hp Hf. unfold bind_exc.
  induction p as [r | X e k IH]; simpl in *.
  - rewrite Hp. exact Hf.
  - destruct Hp as [He Hk]. split; [exact He |].
    intros x. specialize (Hk x).
    destruct (print_raised e x) as [ex |].
    + rewrite Hk. reflexivity.
    + apply IH, Hk.
Qed.

Lemma prints_then_print (line : string) : prints_then tt (print line).
Proof.
  simpl. split; [exact I |]. intros [[] | ex]; reflexivity.
Qed.

Lemma prints_then_items (bullet : string) (items : list string) :
  prints_then tt (print_items bullet items).
Proof.
  induction items as [| item rest IH]; [reflexivity |].
  cbn [print_items].
  apply (prints_then_bind tt); [apply prints_then_print | exact IH].
Qed.

Lemma prints_then_section (title bullet : string) (items : list string) :
  prints_then tt (print_section title bullet items).
Proof.
  destruct items as [| item rest]; [reflexivity |].
  unfold print_section.
  apply (prints_then_bind tt);
    [apply prints_then_print | apply prints_then_items].
Qed.

Create HintDb prints.
#[export] Hint Resolve prints_then_print prints_then_items
  prints_then_section : prints.

(** Peel the lines off a program that prints. *)
Ltac prints_tac :=
  repeat (eapply prints_then_bind; [solve [eauto with prints] |];
          cbn beta).

(** A program that only prints makes no call into the bridge. *)
Lemma prints_then_quiet {R} (v : R) (p : Prog (Exc R)) :
  prints_then v p -> quiet p.
Proof.
  induction p as [r | X e k IH]; simpl; [auto |].
  intros [He Hk]. split; [destruct e; try contradiction; reflexivity |].
  intros x. specialize (Hk x).
  destruct (print_raised e x) as [ex |]; [rewrite Hk; exact I | apply IH, Hk].
Qed.

Lemma quiet_bind {A B} (p : Prog A) (f : A -> Prog B) :
  quiet p -> (forall a, quiet (f a)) -> quiet (bind p f).
Proof.
  intros Hp Hf. induction p as [a | X e k IH]; simpl.
  - apply Hf.
  - destruct Hp as [He Hk]. split; [exact He |].
    intros x. apply IH, Hk.
Qed.

Lemma quiet_print line : quiet (print line).
Proof. simpl. auto. Qed.

Lemma quiet_print_err line : quiet (print_err line).
Proof. simpl. auto. Qed.

Lemma quiet_print_items bullet items : quiet (print_items bullet items).
Proof. apply (prints_then_quiet tt), prints_then_items. Qed.

Lemma quiet_print_section title bullet items :
  quiet (print_section title bullet items).
Proof. apply (prints_then_quiet tt), prints_then_section. Qed.

Create HintDb quiet.
#[export] Hint Resolve quiet_print quiet_print_err quiet_print_items
  quiet_print_section : quiet.

(** Peel a program apart: sequencing, conditionals, results. *)
Ltac quiet_step :=
  match goal with
  | |- quiet (bind _ _) => apply quiet_bind; [| intros ?]
  | |- quiet (bind_exc _ _) => apply quiet_bind; [| intros [?|?]]
  | |- quiet (Ret _) => exact I
  | |- quiet (if ?c then _ else _) => destruct c
  | |- quiet (match ?r with Returned _ => _ | Raised _ => _ end) =>
      destruct r
  | |- quiet (let '(_, _) := ?x in _) => destruct x
  | |- quiet (trigger _) => simpl; split; [reflexivity | intros ?; exact I]
  | |- quiet _ => solve [auto with quiet]
  end.

(** ** The InDesign server *)

Section Dispatching.
Context {S : Type} (h : handler S).

(** What a run of [dispatch] does: the builder is asked once, then the
    facade is asked once with the command the builder gave, and its answer
    is the result. *)
Lemma run_dispatch (action : string) (options : dict) (s : S) :
  run h (dispatch action options) s
  = match h _ (CreateCommand action options) s with
    | (Returned command, s') => h _ (SendCommand command) s'
    | (Raised e, s') => (Raised e, s')
    end.
Proof.
  unfold dispatch, bind_exc, createCommand, sendCommand, trigger. simpl.
  destruct (h _ (CreateCommand action options) s) as [[command | e] s'];
    simpl; [| reflexivity].
  destruct (h _ (SendCommand command) s') as [r s'']. reflexivity.
Qed.


End Dispatching.

(** Every operation is [dispatch] at a name fixed by the operation and a
    payload made from the arguments. *)
Lemma invoke_dispatch (t : InDesign.Tool) :
  exists action : string, forall a : InDesign.Args t,
    exists options : dict, InDesign.invoke t a = dispatch action options.
Proof.
  destruct t; simpl; eexists; intros a;
    repeat match goal with p : (_ * _)%type |- _ => destruct p end;
    eexists; reflexivity.
Qed.

(** An operation whose body is a direct mapping: the command name and
    the template are given, the rest is computation. *)
Ltac direct_mapping action template :=
  exists action, template; split;
  [ first [ reflexivity
          | apply NoDup_Permutation;
            [ apply (bool_decide_unpack _); vm_compute; reflexivity
            | apply (bool_decide_unpack _); vm_compute; reflexivity
            | intros x; simpl; rewrite !elem_of_cons, !elem_of_nil; tauto ] ]
  | intros a; simpl in a;
    repeat match goal with p : (_ * _)%type |- _ => destruct p end;
    split; [reflexivity |];
    split; [reflexivity |];
    let h := fresh "h" in intros ? h ?; apply (run_dispatch h) ].

(** C2. Every operation function of the InDesign server is a direct
    mapping of its named parameters into a payload dictionary: there are a
    command name and a template of the payload (keys, each with a constant
    or with the name of a parameter), both fixed by the operation, such
    that the template takes a value from every parameter of the signature
    exactly once and such that, at every argument tuple, the function is
    one call of createCommand with that name and with the template filled
    with the arguments of the call, followed by one call of sendCommand on
    the command obtained; in every environment the value the function
    returns is the value sendCommand produced, unchanged (and the exception
    of createCommand when it raised one). *)
Theorem operations_only_dispatch (t : InDesign.Tool) :
  exists (action : string) (template : list (string * slot)),
    params template ≡ₚ InDesign.parameter_names t
    /\ forall a : InDesign.Args t,
         map fst (InDesign.arguments t a) = InDesign.parameter_names t
         /\ InDesign.invoke t a
            = (command <-? createCommand action
                             (fill template (InDesign.arguments t a)) ;;
               sendCommand command)
         /\ forall (S : Type) (h : handler S) (s : S),
              run h (InDesign.invoke t a) s
              = match h _ (CreateCommand action
                             (fill template (InDesign.arguments t a))) s with
                | (Returned command, s') => h _ (SendCommand command) s'
                | (Raised e, s') => (Raised e, s')
                end.
Proof.
  destruct t.
  - direct_mapping "createDocument"
      [("intent", Const (VStr "WEB_INTENT")); ("pageWidth", Param "width");
       ("pageHeight", Param "height"); ("margins", Param "margins");
       ("columns", Param "columns"); ("pagesPerDocument", Param "pages");
       ("facingPages", Param "facing_pages")].
  - direct_mapping "getTextFrames" [("pageIndex", Param "page_index")].
  - direct_mapping "getTextFrameInfo"
      [("frameIndex", Param "text_frame_index");
       ("pageIndex", Param "page_index")].
  - direct_mapping "openDocument" [("filePath", Param "file_path")].
  - direct_mapping "saveDocument" (@nil (string * slot)).
  - direct_mapping "saveDocumentAs" [("filePath", Param "file_path")].
  - direct_mapping "closeDocument" [("saveOptions", Param "save_options")].
  - direct_mapping "getDocumentInfo" (@nil (string * slot)).
  - direct_mapping "createTextFrame"
      [("pageIndex", Param "page_index");
       ("geometricBounds", Param "geometric_bounds")].
  - direct_mapping "insertText"
      [("frameIndex", Param "text_frame_index"); ("text", Param "text");
       ("pageIndex", Param "page_index")].
  - direct_mapping "importTextFile"
      [("frameIndex", Param "text_frame_index");
       ("filePath", Param "file_path"); ("pageIndex", Param "page_index");
       ("insertionPoint", Param "insertion_point")].
  - direct_mapping "removeDuplicateFrames" (@nil (string * slot)).
  - direct_mapping "createThreadedFrames"
      [("startPage", Param "start_page"); ("endPage", Param "end_page");
       ("geometricBounds", Param "geometric_bounds")].
  - direct_mapping "linkTextFrames"
      [("sourceFrameIndex", Param "source_frame_index");
       ("targetFrameIndex", Param "target_frame_index");
       ("sourcePageIndex", Param "source_page_index");
       ("targetPageIndex", Param "target_page_index")].
  - direct_mapping "getTextContent"
      [("frameIndex", Param "text_frame_index");
       ("pageIndex", Param "page_index")].
  - direct_mapping "detectTextOverflow"
      [("frameIndex", Param "text_frame_index");
       ("pageIndex", Param "page_index")].
  - direct_mapping "getParagraphStyles" (@nil (string * slot)).
  - direct_mapping "getCharacterStyles" (@nil (string * slot)).
  - direct_mapping "applyParagraphStyle"
      [("styleName", Param "style_name");
       ("frameIndex", Param "text_frame_index");
       ("paragraphRange", Param "paragraph_range");
       ("pageIndex", Param "page_index")].
  - direct_mapping "applyCharacterStyleToText"
      [("styleName", Param "style_name"); ("searchText", Param "search_text");
       ("frameIndex", Param "text_frame_index");
       ("occurrence", Param "occurrence"); ("pageIndex", Param "page_index")].
  - direct_mapping "createParagraphStyle"
      [("styleName", Param "style_name"); ("properties", Param "properties")].
  - direct_mapping "addPage"
      [("location", Param "location");
       ("referencePage", Param "reference_page")].
  - direct_mapping "placeImage"
      [("filePath", Param "file_path"); ("pageIndex", Param "page_index");
       ("position", Param "position"); ("fitOption", Param "fit_option")].
  - direct_mapping "getPdfExportPresets" (@nil (string * slot)).
  - direct_mapping "exportPdf"
      [("filePath", Param "file_path"); ("pageRange", Param "page_range");
       ("presetName", Param "preset_name")].
Qed.

Section ServerTrace.
Context {S : Type} (h : handler S).




End ServerTrace.




(** ** The dispatch bridge *)

(** The wait ends by the deadline, whatever arrives. *)
Lemma wait_deadline (items : list (N * Bridge.Incoming))
    (remaining elapsed cid : N) :
  (snd (Bridge.wait remaining elapsed cid items) <= elapsed + remaining)%N.
Proof.
  revert remaining elapsed.
  induction items as [| [delay item] rest IH]; intros remaining elapsed;
    simpl.
  - lia.
  - destruct (N.ltb_spec remaining delay) as [Hlate | Hin]; simpl; [lia |].
    destruct item as [[r | raw] |]; simpl; try lia.
    destruct (resp_id r =? cid)%N; simpl; [lia |].
    specialize (IH (remaining - delay)%N (elapsed + delay)%N). lia.
Qed.

(** With no reply of the right identity and no fault before the deadline,
    the wait lasts the whole timeout and fails with Timeout. *)
Lemma wait_timeout (items : list (N * Bridge.Incoming))
    (remaining elapsed cid : N) :
  Bridge.answered remaining cid items = false ->
  Bridge.faulted remaining items = false ->
  Bridge.wait remaining elapsed cid items
  = (Bridge.Failed Timeout "no reply", (elapsed + remaining)%N).
Proof.
  revert remaining elapsed.
  induction items as [| [delay item] rest IH]; intros remaining elapsed;
    simpl; [reflexivity |].
  destruct (N.ltb_spec remaining delay) as [Hlate | Hin]; [reflexivity |].
  destruct item as [[r | raw] |]; try discriminate.
  intros Hans Hfault. apply orb_false_iff in Hans as [Hid Hans].
  rewrite Hid, (IH _ _ Hans Hfault). f_equal. lia.
Qed.

(** C4 (as amended). The blocking send of the transport client returns no
    later than the configured timeout after the command was sent, whatever
    the endpoint does; and when the endpoint is reachable, no response
    with the correlation id of the command arrives within the timeout, and
    within the timeout the connection is not lost and nothing undecodable
    arrives, the send fails with the Timeout classification exactly when
    the timeout has elapsed. *)
Theorem send_timeout (cfg : EndpointConfig) (command : Command)
    (wire : Bridge.Wire) :
  (snd (Bridge.send_message_blocking cfg command wire) <= timeout cfg)%N
  /\ (Bridge.reachable wire = true ->
      Bridge.answered (timeout cfg) (id command) (Bridge.incoming wire)
      = false ->
      Bridge.faulted (timeout cfg) (Bridge.incoming wire) = false ->
      Bridge.send_message_blocking cfg command wire
      = (Bridge.Failed Timeout "no reply", timeout cfg)).
Proof.
  unfold Bridge.send_message_blocking. split.
  - destruct (Bridge.reachable wire); simpl; [| lia].
    pose proof (wait_deadline (Bridge.incoming wire) (timeout cfg) 0
                  (id command)). lia.
  - intros -> Hans Hfault. rewrite (wait_timeout _ _ _ _ Hans Hfault).
    reflexivity.
Qed.

(** A proxy that never replies: the send fails with Timeout after the 20
    seconds of the InDesign configuration. *)
Lemma send_timeout_witness :
  Bridge.send_message_blocking Scenario.indesign_config
    (mkCommand "getDocumentInfo" 0 [])
    {| Bridge.reachable := true; Bridge.incoming := [] |}
  = (Bridge.Failed Timeout "no reply", 20%N).
Proof.
  apply (send_timeout Scenario.indesign_config
           (mkCommand "getDocumentInfo" 0 [])
           {| Bridge.reachable := true; Bridge.incoming := [] |});
    reflexivity.
Defined.

(** C4 (as stated) fails: the connection drops one second after the
    command was sent; no response with the id of the command arrives
    within the 20 seconds, yet the send fails with TransportUnavailable,
    after one second, and not with Timeout. *)
Lemma connection_lost_is_not_timeout :
  let command := mkCommand "getDocumentInfo" 0 [] in
  let wire := Scenario.drops command in
  Bridge.answered (timeout Scenario.indesign_config) (id command)
    (Bridge.incoming wire) = false
  /\ Bridge.send_message_blocking Scenario.indesign_config command wire
     = (Bridge.Failed TransportUnavailable "connection lost", 1%N).
Proof. split; reflexivity. Qed.

(** *** In the world of a process *)

(** What [sendCommand] does in the world once the application is
    registered. *)
Lemma world_sendCommand (w : World) (command : Command)
    (cfg : EndpointConfig) :
  Bridge.client (bridge w) = Some cfg ->
  run world (sendCommand command) w
  = (Returned (Bridge.normalize
       (fst (Bridge.send_message_blocking cfg command (proxy w command)))),
     with_bridge
       (Bridge.after_send command
          (snd (Bridge.send_message_blocking cfg command (proxy w command)))
          (bridge w)) w).
Proof.
  intros Hc. unfold sendCommand. rewrite run_trigger. simpl.
  unfold on_bridge, Bridge.do_sendCommand. rewrite Hc.
  destruct (Bridge.send_message_blocking cfg command (proxy w command))
    as [r elapsed].
  reflexivity.
Qed.

(** In the world, [dispatch] builds the command with the next identity
    and sends it. *)
Lemma world_dispatch (action : string) (options : dict) (w : World) :
  run world (dispatch action options) w
  = run world
      (sendCommand (mkCommand action (Bridge.next_id (bridge w)) options))
      (with_bridge
         (snd (Bridge.do_createCommand action options (bridge w))) w).
Proof.
  rewrite run_dispatch. unfold sendCommand. rewrite run_trigger.
  reflexivity.
Qed.

(** Building and sending commands leaves the registration and the proxy
    as they were. *)
Lemma world_sendCommand_frame (command : Command) (w : World) :
  let w' := snd (run world (sendCommand command) w) in
  Bridge.client (bridge w') = Bridge.client (bridge w)
  /\ proxy w' = proxy w.
Proof.
  destruct (Bridge.client (bridge w)) as [cfg |] eqn:Hc.
  - rewrite (world_sendCommand w command cfg Hc). simpl.
    split; [exact Hc | reflexivity].
  - unfold sendCommand. rewrite run_trigger. simpl.
    unfold on_bridge, Bridge.do_sendCommand. rewrite Hc. simpl.
    split; [exact Hc | reflexivity].
Qed.

Lemma world_dispatch_frame (action : string) (options : dict) (w : World) :
  let w' := snd (run world (dispatch action options) w) in
  Bridge.client (bridge w') = Bridge.client (bridge w)
  /\ proxy w' = proxy w.
Proof.
  rewrite world_dispatch.
  match goal with
  | |- context [run world (sendCommand ?c) ?w1] =>
      destruct (world_sendCommand_frame c w1) as [Hc Hp]
  end.
  split; [rewrite Hc | rewrite Hp]; reflexivity.
Qed.

Lemma world_serve_frame (calls : list InDesign.Call) (w : World) :
  let w' := snd (run world (InDesign.serve calls) w) in
  Bridge.client (bridge w') = Bridge.client (bridge w)
  /\ proxy w' = proxy w.
Proof.
  revert w. induction calls as [| [t a] rest IH]; intros w; simpl.
  - split; reflexivity.
  - rewrite run_bind.
    destruct (invoke_dispatch t) as [action Ha].
    destruct (Ha a) as [options Ho]. simpl. rewrite Ho.
    destruct (world_dispatch_frame action options w) as [Hc Hp].
    destruct (IH (snd (run world (dispatch action options) w))) as [Hc' Hp'].
    split; congruence.
Qed.

Lemma world_register_tools (tools : list InDesign.Tool) (w : World) :
  let w' := snd (run world (InDesign.register_tools tools) w) in
  bridge w' = bridge w /\ proxy w' = proxy w.
Proof.
  revert w. induction tools as [| t rest IH]; intros w.
  - split; reflexivity.
  - cbn [InDesign.register_tools bind run trigger world].
    match goal with
    | |- context [run world (InDesign.register_tools rest) ?w1] =>
        destruct (IH w1) as [Hb Hp]
    end.
    split; [rewrite Hb | rewrite Hp]; reflexivity.
Qed.

(** Importing the module registers the InDesign endpoint and nothing
    raises. *)
Lemma world_configure (app url : string) (t : N) (w : World) :
  run world (configure app url t) w
  = (Returned tt, with_bridge (Bridge.do_configure app url t (bridge w)) w).
Proof. unfold configure. rewrite run_trigger. reflexivity. Qed.

Lemma world_init (app : string) (w : World) :
  run world (init app) w
  = (Returned tt, with_bridge (Bridge.do_init app (bridge w)) w).
Proof. unfold init. rewrite run_trigger. reflexivity. Qed.

Lemma client_after_registration (app url : string) (t : N)
    (s : Bridge.State) :
  Bridge.client (Bridge.do_init app (Bridge.do_configure app url t s))
  = Some (mkEndpointConfig app url t).
Proof. unfold Bridge.client. simpl. apply lookup_insert_eq. Qed.

Lemma world_module_body_run (w : World) :
  exists w', run world InDesign.module_body w = (Returned tt, w')
    /\ Bridge.client (bridge w') = Some Scenario.indesign_config
    /\ proxy w' = proxy w.
Proof.
  unfold InDesign.module_body, bind_exc.
  rewrite run_bind, run_trigger.
  change (world unit (NewFastMCP InDesign.mcp_name "ERROR") w) with (tt, w).
  cbn [fst snd].
  rewrite run_bind. unfold print_err at 1. rewrite run_trigger.
  set (w1 := snd (world unit (PrintErr _) w)).
  assert (Hw1 : bridge w1 = bridge w /\ proxy w1 = proxy w)
    by (split; reflexivity).
  clearbody w1. destruct Hw1 as [Hb1 Hp1].
  rewrite run_bind, world_configure. cbn [fst snd].
  rewrite run_bind, world_init. cbn [fst snd].
  rewrite run_bind.
  match goal with
  | |- context [run world (InDesign.register_tools ?ts) ?w3] =>
      destruct (world_register_tools ts w3) as [Hb Hp];
      destruct (run world (InDesign.register_tools ts) w3) as [[] w4]
  end.
  cbn [fst snd] in Hb, Hp. cbn [fst snd bridge with_bridge proxy] in Hb, Hp.
  rewrite run_bind, run_trigger.
  change (world unit (RegisterResource "config://get_instructions"
            "get_instructions") w4) with (tt, w4).
  cbn [run fst snd].
  exists w4. split; [reflexivity | split].
  - rewrite Hb, Hb1. apply client_after_registration.
  - rewrite Hp. exact Hp1.
Qed.

Lemma world_module_body (w : World) :
  let w' := snd (run world InDesign.module_body w) in
  fst (run world InDesign.module_body w) = Returned tt
  /\ Bridge.client (bridge w') = Some Scenario.indesign_config
  /\ proxy w' = proxy w.
Proof.
  destruct (world_module_body_run w) as [w' [Hr [Hc Hp]]].
  rewrite Hr. split; [reflexivity | split; assumption].
Qed.

Lemma world_process (calls : list InDesign.Call) (w : World) :
  let w' := snd (run world (InDesign.process calls) w) in
  Bridge.client (bridge w') = Some Scenario.indesign_config
  /\ proxy w' = proxy w.
Proof.
  unfold InDesign.process, bind_exc. rewrite run_bind.
  destruct (world_module_body_run w) as [w1 [Hr [Hc Hp]]]. rewrite Hr.
  cbn [fst snd]. rewrite run_bind. cbn [run snd].
  destruct (world_serve_frame calls w1) as [Hc' Hp'].
  split; congruence.
Qed.


(** C3. In the InDesign server process, after the module was imported and
    any number of tool calls were served, sendCommand returns an Outcome
    for every command (every name, every parameter mapping, every
    identity) and for everything the endpoint may do: the Outcome is the
    normalisation of what the transport produced, so that a transport
    failure of any kind (timeout, endpoint unreachable, malformed reply)
    and a reply with status error both come back as data, with success
    false and the error populated; nothing is raised. *)
Theorem sendCommand_returns_outcome (w0 : World)
    (calls : list InDesign.Call) (command : Command) :
  let w := snd (run world (InDesign.process calls) w0) in
  let r := fst (Bridge.send_message_blocking Scenario.indesign_config
                  command (proxy w0 command)) in
  (exists w', run world (sendCommand command) w
              = (Returned (Bridge.normalize r), w'))
  /\ (forall k msg, r = Bridge.Failed k msg ->
        Bridge.normalize r
        = {| success := false; data := None;
             error := Some {| kind := Bridge.kind_name k;
                              message := msg |} |})
  /\ (forall rid e,
        r = Bridge.Delivered {| resp_id := rid; body := StatusError e |} ->
        Bridge.normalize r
        = {| success := false; data := None; error := Some e |}).
Proof.
  intros w r. destruct (world_process calls w0) as [Hc Hp].
  fold w in Hc, Hp. split; [| split].
  - eexists. rewrite (world_sendCommand w command _ Hc). rewrite Hp.
    reflexivity.
  - intros k msg ->. reflexivity.
  - intros rid e ->. reflexivity.
Qed.

(** The proxy never replies: the Outcome of the scenario of section 8. *)
Lemma sendCommand_returns_outcome_witness :
  Bridge.normalize (Bridge.Failed Timeout "no reply")
  = {| success := false; data := None;
       error := Some {| kind := "Timeout"; message := "no reply" |} |}.
Proof.
  pose proof (sendCommand_returns_outcome
                (Scenario.fresh_world
                   (fun _ => {| Bridge.reachable := true;
                                Bridge.incoming := [] |}) ∅)
                [] (mkCommand "getDocumentInfo" 0 [])) as [_ [H _]].
  apply (H Timeout "no reply"). reflexivity.
Defined.

(** The Outcome of a transport failure reports one of the three kinds of
    the transport. *)
Lemma normalize_failed_kind (k : FailureKind) (msg : string) :
  option_map kind (error (Bridge.normalize (Bridge.Failed k msg)))
  = Some (Bridge.kind_name k)
  /\ In (Bridge.kind_name k) Bridge.transport_kinds.
Proof.
  split; [reflexivity |]. destruct k; simpl; auto.
Qed.

(** C5 (as amended). When the transport delivers a well-formed reply whose
    status is error, dispatch returns the Outcome with success false whose
    error is the one the proxy supplied, kind and message; the transport
    client itself returns that reply to its caller and raises no failure;
    and provided the kind the proxy supplied is not one of the names
    Timeout, TransportUnavailable and ProtocolError, the Outcome differs
    from the Outcome of every dispatch that ended in a failure of the
    transport. *)
Theorem application_error_outcome (w : World) (cfg : EndpointConfig)
    (action : string) (options : dict) (rid : N) (e : ErrorInfo) :
  let command := mkCommand action (Bridge.next_id (bridge w)) options in
  Bridge.client (bridge w) = Some cfg ->
  fst (Bridge.send_message_blocking cfg command (proxy w command))
  = Bridge.Delivered {| resp_id := rid; body := StatusError e |} ->
  (exists w', run world (dispatch action options) w
              = (Returned {| success := false; data := None;
                             error := Some e |}, w'))
  /\ (exists w', run world (trigger (SendMessageBlocking command)) w
                 = (Returned {| resp_id := rid; body := StatusError e |},
                    w'))
  /\ (~ In (kind e) Bridge.transport_kinds ->
      forall (w2 : World) (cfg2 : EndpointConfig) (action2 : string)
             (options2 : dict) (k : FailureKind) (msg : string),
        let command2 :=
          mkCommand action2 (Bridge.next_id (bridge w2)) options2 in
        Bridge.client (bridge w2) = Some cfg2 ->
        fst (Bridge.send_message_blocking cfg2 command2 (proxy w2 command2))
        = Bridge.Failed k msg ->
        fst (run world (dispatch action2 options2) w2)
        <> fst (run world (dispatch action options) w)).
Proof.
  intros command Hc Hr.
  assert (Hrun : fst (run world (dispatch action options) w)
                 = Returned {| success := false; data := None;
                               error := Some e |}).
  { rewrite world_dispatch. fold command.
    erewrite world_sendCommand by exact Hc.
    simpl proxy. rewrite Hr. reflexivity. }
  split; [| split].
  - rewrite world_dispatch. fold command.
    erewrite world_sendCommand by exact Hc.
    simpl proxy. rewrite Hr. eexists. reflexivity.
  - rewrite run_trigger. simpl.
    unfold on_bridge, Bridge.do_send_message_blocking. rewrite Hc.
    destruct (Bridge.send_message_blocking cfg command (proxy w command))
      as [r elapsed].
    simpl in Hr. subst r. eexists. reflexivity.
  - intros Hkind w2 cfg2 action2 options2 k msg command2 Hc2 Hr2.
    rewrite Hrun, world_dispatch. fold command2.
    erewrite world_sendCommand by exact Hc2.
    simpl proxy. rewrite Hr2. cbn [fst].
    intros Heq. injection Heq as He. apply Hkind. rewrite <- He.
    exact (proj2 (normalize_failed_kind k msg)).
Qed.

(** The proxy reports that no document is open: the Outcome of the
    scenario of section 8, which is not the Outcome of the same call when
    the proxy never replies. *)
Lemma application_error_outcome_witness :
  (exists w',
     run world (dispatch "saveDocument" [])
       (Scenario.server (Scenario.replies
          (StatusError Scenario.document_not_open)))
     = (Returned {| success := false; data := None;
                    error := Some Scenario.document_not_open |}, w'))
  /\ fst (run world (dispatch "saveDocument" [])
            (Scenario.server Scenario.silent))
     <> fst (run world (dispatch "saveDocument" [])
               (Scenario.server (Scenario.replies
                  (StatusError Scenario.document_not_open)))).
Proof.
  destruct (application_error_outcome
              (Scenario.server (Scenario.replies
                 (StatusError Scenario.document_not_open)))
              Scenario.indesign_config "saveDocument" [] 0
              Scenario.document_not_open) as [H1 [_ H3]];
    [vm_compute; reflexivity | vm_compute; reflexivity |].
  split; [exact H1 |].
  apply (H3 ltac:(vm_compute; intuition discriminate)
            (Scenario.server Scenario.silent) Scenario.indesign_config
            "saveDocument" [] Timeout "no reply");
    vm_compute; reflexivity.
Defined.

(** C5 (as stated) fails: the proxy answers with a well-formed reply of
    status error whose kind is Timeout.  The transport delivers the reply,
    dispatch returns success false with the kind the proxy supplied, and
    that Outcome is the very Outcome dispatch returns when the proxy never
    replies and the transport fails with Timeout: the Outcome does not
    tell the two apart. *)
Lemma error_reply_same_as_timeout :
  let reported :=
    Scenario.server (Scenario.replies
      (StatusError Scenario.proxy_timed_out)) in
  let unanswered := Scenario.server Scenario.silent in
  let command := mkCommand "saveDocument" 0 [] in
  fst (Bridge.send_message_blocking Scenario.indesign_config command
         (proxy reported command))
  = Bridge.Delivered
      {| resp_id := 0; body := StatusError Scenario.proxy_timed_out |}
  /\ fst (Bridge.send_message_blocking Scenario.indesign_config command
            (proxy unanswered command))
     = Bridge.Failed Timeout "no reply"
  /\ fst (run world (dispatch "saveDocument" []) reported)
     = Returned {| success := false; data := None;
                   error := Some {| kind := "Timeout";
                                    message := "no reply" |} |}
  /\ fst (run world (dispatch "saveDocument" []) reported)
     = fst (run world (dispatch "saveDocument" []) unanswered).
Proof. repeat split; vm_compute; reflexivity. Qed.

(** C1 (as amended). Invoked with width 612, height 792 and pages 1 (the
    other arguments at their defaults), create_document asks for a command
    named createDocument whose parameters are intent WEB_INTENT, pageWidth
    612, pageHeight 792, the default margins, the default columns,
    pagesPerDocument 1 and facingPages false; and when the server is
    registered and the proxy answers that command within the timeout with
    status ok and result {pageCount: 1}, the Outcome returned is success
    true with data {pageCount: 1}, and that command is the one sent. *)
Theorem create_document_scenario (w : World) (delay : N) :
  let call :=
    InDesign.create_document 612 792 1 false InDesign.default_columns
      InDesign.default_margins in
  let command :=
    mkCommand "createDocument" (Bridge.next_id (bridge w))
      Scenario.create_document_payload in
  Bridge.client (bridge w) = Some Scenario.indesign_config ->
  proxy w command
  = {| Bridge.reachable := true;
       Bridge.incoming :=
         [(delay, Bridge.Arrives (Bridge.Decoded
             {| resp_id := id command;
                body := StatusOk Scenario.page_count_1 |}))] |} ->
  (delay <= 20)%N ->
  requested call = Some ("createDocument", Scenario.create_document_payload)
  /\ exists w',
       run world call w
       = (Returned {| success := true; data := Some Scenario.page_count_1;
                      error := None |}, w')
       /\ Bridge.sent (bridge w') = command :: Bridge.sent (bridge w).
Proof.
  intros call command Hc Hproxy Hdelay. split; [reflexivity |].
  change call with (dispatch "createDocument" Scenario.create_document_payload).
  rewrite world_dispatch. fold command.
  erewrite world_sendCommand by exact Hc.
  cbn [proxy with_bridge]. eexists. rewrite Hproxy.
  unfold Bridge.send_message_blocking.
  cbn [Bridge.reachable Bridge.incoming Bridge.wait timeout
       Scenario.indesign_config resp_id id command].
  replace (20 <? delay)%N with false by (symmetry; apply N.ltb_ge; exact Hdelay).
  rewrite N.eqb_refl. split; reflexivity.
Qed.

(** The scenario of section 8: the proxy replies after one second. *)
Lemma create_document_scenario_witness :
  exists w',
    run world
      (InDesign.create_document 612 792 1 false InDesign.default_columns
         InDesign.default_margins)
      (Scenario.server (Scenario.replies (StatusOk Scenario.page_count_1)))
    = (Returned {| success := true; data := Some Scenario.page_count_1;
                   error := None |}, w')
    /\ Bridge.sent (bridge w')
       = [mkCommand "createDocument" 0 Scenario.create_document_payload].
Proof.
  apply (create_document_scenario
           (Scenario.server
              (Scenario.replies (StatusOk Scenario.page_count_1))) 1);
    [vm_compute; reflexivity | vm_compute; reflexivity | lia].
Defined.

(** The run of the scenario of section 8 in the world of the server. *)
Lemma create_document_scenario_run :
  exists w',
    run world
      (InDesign.create_document 612 792 1 false InDesign.default_columns
         InDesign.default_margins)
      (Scenario.server (Scenario.replies (StatusOk Scenario.page_count_1)))
    = (Returned {| success := true; data := Some Scenario.page_count_1;
                   error := None |}, w')
    /\ Bridge.sent (bridge w')
       = [mkCommand "createDocument" 0 Scenario.create_document_payload].
Proof.
  set (w := Scenario.server
              (Scenario.replies (StatusOk Scenario.page_count_1))).
  change (InDesign.create_document 612 792 1 false InDesign.default_columns
            InDesign.default_margins)
    with (dispatch "createDocument" Scenario.create_document_payload).
  rewrite world_dispatch.
  assert (Hc : Bridge.client (bridge
            (with_bridge (snd (Bridge.do_createCommand "createDocument"
               Scenario.create_document_payload (bridge w))) w))
          = Some Scenario.indesign_config) by (vm_compute; reflexivity).
  rewrite (world_sendCommand _ _ _ Hc).
  eexists. split; [reflexivity |]. vm_compute. reflexivity.
Qed.

(** C1 (as stated) fails: with the server registered and the proxy
    answering status ok and result {pageCount: 1}, create_document 612 792 1
    does send one command, named createDocument, and the Outcome is the
    one claimed, but the parameters of the command are not the mapping
    {width: 612, height: 792, pages: 1}: they have no key width. *)
Lemma create_document_parameters_differ :
  exists command w',
    run world
      (InDesign.create_document 612 792 1 false InDesign.default_columns
         InDesign.default_margins)
      (Scenario.server (Scenario.replies (StatusOk Scenario.page_count_1)))
    = (Returned {| success := true; data := Some Scenario.page_count_1;
                   error := None |}, w')
    /\ Bridge.sent (bridge w') = [command]
    /\ name command = "createDocument"
    /\ dict_get "width" (parameters command) = None
    /\ ~ dict_equiv (parameters command)
           [("width", VInt 612); ("height", VInt 792); ("pages", VInt 1)].
Proof.
  destruct create_document_scenario_run as [w' [Hr Hs]].
  exists (mkCommand "createDocument" 0 Scenario.create_document_payload), w'.
  split; [exact Hr |]. split; [exact Hs |]. split; [reflexivity |].
  split; [reflexivity |].
  intros H. specialize (H "width"). discriminate H.
Qed.

(** ** The auxiliary scripts *)

Ltac quiet_tac :=
  repeat (first
    [ quiet_step
    | match goal with
      | |- quiet (let '(_, _) := (if ?c then _ else _) in _) => destruct c
      | |- quiet (match ?r with
                  | Returned _ => _
                  | Raised _ => _
                  end) => destruct r
      | |- quiet (match ?e with UnicodeDecodeError _ => _ | _ => _ end) =>
          destruct e
      end ];
    cbn beta iota zeta).

Lemma quiet_count_text (file_path : string) :
  quiet (EstimatePages.count_text file_path).
Proof. unfold EstimatePages.count_text. quiet_tac. Qed.

Lemma quiet_estimate_pages {py : PyRuntime} (text_file page_size : string)
    (font_size : Z) (margins : string) (leading : option pyfloat) :
  quiet (EstimatePages.estimate_pages text_file page_size font_size margins
           leading).
Proof.
  unfold EstimatePages.estimate_pages.
  pose proof quiet_count_text. quiet_tac.
Qed.

Lemma prints_then_assumptions (items : list string) :
  prints_then tt (EstimatePages.print_assumptions items).
Proof.
  induction items as [| a rest IH]; [reflexivity |].
  cbn [EstimatePages.print_assumptions]. prints_tac. exact IH.
Qed.

Lemma quiet_print_assumptions (items : list string) :
  quiet (EstimatePages.print_assumptions items).
Proof. apply (prints_then_quiet tt), prints_then_assumptions. Qed.

Lemma quiet_estimate_main {py : PyRuntime} (args : EstimatePages.Namespace) :
  quiet (EstimatePages.main args).
Proof.
  unfold EstimatePages.main.
  pose proof (@quiet_estimate_pages py). pose proof quiet_print_assumptions.
  quiet_tac.
Qed.

Lemma prints_then_preflight_summary
    (results : list (string * PreflightPdf.PreflightResult)) :
  prints_then tt (PreflightPdf.print_summary results).
Proof.
  induction results as [| [check_name result] rest IH]; [reflexivity |].
  cbn [PreflightPdf.print_summary]. prints_tac. exact IH.
Qed.

(** The pre-flight checker prints its report and returns the code the two
    flags stand for after the four checks. *)
Lemma preflight_main_prints (args : PreflightPdf.Namespace) :
  let flags :=
    PreflightPdf.account
      (PreflightPdf.account
         (PreflightPdf.account
            (PreflightPdf.account (true, false)
               (PreflightPdf.check_preset_exists
                  (PreflightPdf.preset args) false))
            (PreflightPdf.check_preset_match (PreflightPdf.preset args)
               (PreflightPdf.output_type args)))
         (PreflightPdf.check_color_space (PreflightPdf.preset args)
            (PreflightPdf.output_type args)))
      (PreflightPdf.check_resolution (PreflightPdf.preset args)
         (PreflightPdf.output_type args)) in
  prints_then
    (if fst flags && negb (snd flags) then 0
     else if fst flags && snd flags then 10 else 11)
    (PreflightPdf.main args).
Proof.
  intros flags. unfold PreflightPdf.main. cbv zeta.
  pose proof prints_then_preflight_summary.
  prints_tac. fold flags.
  destruct flags as [all_passed has_warnings]. cbn [fst snd].
  destruct (all_passed && negb has_warnings);
    [| destruct (all_passed && has_warnings)];
    prints_tac; reflexivity.
Qed.

Lemma quiet_preflight_main (args : PreflightPdf.Namespace) :
  quiet (PreflightPdf.main args).
Proof. eapply prints_then_quiet, preflight_main_prints. Qed.

(** The document validator prints its report and returns 10: every check
    that runs warns and none fails, and at least one check runs. *)
Lemma validate_main_prints (args : ValidateDocument.Namespace) :
  prints_then 10 (ValidateDocument.main args).
Proof.
  destruct args as [[] [] [] [] []]; cbn;
    repeat (split; [exact I | intros [[] | ex]; [| reflexivity]]);
    reflexivity.
Qed.

Lemma quiet_validate_main (args : ValidateDocument.Namespace) :
  quiet (ValidateDocument.main args).
Proof. eapply prints_then_quiet, validate_main_prints. Qed.

(** C7. In every environment and on every command line, a run of the
    page-count estimator, of the PDF pre-flight checker and of the
    document validator makes no call into the dispatch bridge: neither
    createCommand nor sendCommand nor the transport client (nor a
    registration); so does estimate_pages on its own.  (The check
    functions of the two checkers and the parsers and estimators of the
    first script are functions of their arguments and of the constant
    tables alone.) *)
Theorem scripts_never_dispatch (S : Type) (h : handler S) (s : S) :
  (forall (py : PyRuntime) (args : EstimatePages.Namespace),
     trace h (EstimatePages.main args) s = [])
  /\ (forall (py : PyRuntime) (text_file page_size : string) (font_size : Z)
        (margins : string) (leading : option pyfloat),
        trace h (EstimatePages.estimate_pages text_file page_size font_size
                   margins leading) s = [])
  /\ (forall args : PreflightPdf.Namespace,
        trace h (PreflightPdf.main args) s = [])
  /\ (forall args : ValidateDocument.Namespace,
        trace h (ValidateDocument.main args) s = []).
Proof.
  repeat split; intros; apply quiet_trace.
  - apply quiet_estimate_main.
  - apply quiet_estimate_pages.
  - apply quiet_preflight_main.
  - apply quiet_validate_main.
Qed.

(** Once a check has warned, the flag stays set. *)
Lemma account_warned (flags : bool * bool)
    (result : PreflightPdf.PreflightResult) :
  snd flags = true \/ PreflightPdf.nonempty (PreflightPdf.warnings result)
                      = true ->
  snd (PreflightPdf.account flags result) = true.
Proof.
  destruct flags as [all_passed has_warnings]. simpl.
  intros [-> | ->]; [destruct (PreflightPdf.nonempty _) |]; reflexivity.
Qed.

(** With the MCP tools not available the first check always warns. *)
Lemma check_preset_exists_warns (preset_name : string) :
  PreflightPdf.nonempty
    (PreflightPdf.warnings
       (PreflightPdf.check_preset_exists preset_name false)) = true.
Proof. reflexivity. Qed.

(** C8 (as amended). On every command line the parser accepts (any preset
    name, an output type among the six choices) and in every environment,
    the pre-flight checker returns 10 or 11 when every line of its report
    was written, and otherwise ends with the exception raised for the
    first line the standard output refused; it never returns 0, and the
    exit status of the process is never 0: the availability of the MCP
    tools is fixed to false, so that the first check, check_preset_exists,
    warns on every run, and the flag has_warnings is set when the exit
    code is chosen. *)
Theorem preflight_exit_code (S : Type) (h : handler S) (s : S)
    (args : PreflightPdf.Namespace) :
  PreflightPdf.accepted args ->
  let result := fst (run h (PreflightPdf.main args) s) in
  match refused h (PreflightPdf.main args) s with
  | None => result = Returned 10 \/ result = Returned 11
  | Some ex => result = Raised ex
  end
  /\ result <> Returned 0
  /\ exit_status result <> 0
  /\ PreflightPdf.warnings
       (PreflightPdf.check_preset_exists (PreflightPdf.preset args) false)
     = ["MCP tools not available - cannot verify preset exists"].
Proof.
  intros _ result. unfold result.
  rewrite (prints_then_run h _ _ s (preflight_main_prints args)).
  match goal with
  | |- context [fst ?f && negb (snd ?f)] =>
      assert (Hw : snd f = true)
        by (do 3 (apply account_warned; left);
            apply account_warned; right; apply check_preset_exists_warns);
      destruct f as [all_passed has_warnings]
  end.
  cbn [fst snd] in *. subst has_warnings.
  destruct (refused h (PreflightPdf.main args) s) as [ex |];
    destruct all_passed; cbn; repeat split; auto; discriminate.
Qed.

(** The preset for commercial printing asked for print output, on a
    terminal that takes every line: the code is 10, the only warning being
    that the preset cannot be verified. *)
Lemma preflight_exit_code_witness :
  let result :=
    fst (run world
           (PreflightPdf.main
              {| PreflightPdf.preset := "[High Quality Print]";
                 PreflightPdf.output_type := "print" |})
           (Scenario.fresh_world Scenario.drops ∅)) in
  (result = Returned 10 \/ result = Returned 11) /\ result <> Returned 0.
Proof.
  pose proof (preflight_exit_code World world
                (Scenario.fresh_world Scenario.drops ∅)
                {| PreflightPdf.preset := "[High Quality Print]";
                   PreflightPdf.output_type := "print" |}) as H.
  destruct H as [H1 [H2 _]].
  - unfold PreflightPdf.accepted. simpl. left. reflexivity.
  - split; [exact H1 | exact H2].
Defined.

(** C8 (as stated) fails: the preset for commercial printing asked for
    print output, a command line the parser accepts, with the standard
    output piped to a reader of ASCII.  The checker ends at the first
    line of the summary, which holds a check mark: twelve lines were
    written, main raises UnicodeEncodeError and returns neither 10 nor
    11, and the process exits with status 1. *)
Lemma preflight_refused_output :
  let args :=
    {| PreflightPdf.preset := "[High Quality Print]";
       PreflightPdf.output_type := "print" |} in
  let result := fst (run world (PreflightPdf.main args) Scenario.teletype) in
  let written :=
    stdout (snd (run world (PreflightPdf.main args) Scenario.teletype)) in
  PreflightPdf.accepted args
  /\ result = Raised (UnicodeEncodeError "codec can't encode character")
  /\ result <> Returned 10
  /\ result <> Returned 11
  /\ exit_status result = 1
  /\ length written = 12%nat
  /\ nth 10 written "" = "PRE-FLIGHT SUMMARY".
Proof.
  intros args result written.
  split; [left; reflexivity |].
  split; [vm_compute; reflexivity |].
  split; [intros H; vm_compute in H; discriminate H |].
  split; [intros H; vm_compute in H; discriminate H |].
  split; [vm_compute; reflexivity |].
  split; vm_compute; reflexivity.
Qed.

Section Margins.
Context {py : PyRuntime}.

(** The comprehension returns a list exactly when every part is a float,
    and then one value per part. *)
Lemma parse_parts_returned (parts : list string) (fs : list pyfloat) :
  EstimatePages.parse_parts parts = Returned fs ->
  Forall (fun x => float_of_str x <> None) parts
  /\ length fs = length parts.
Proof.
  revert fs. induction parts as [| x rest IH]; intros fs; simpl.
  - intros H. injection H as <-. split; [constructor | reflexivity].
  - destruct (float_of_str x) as [f |] eqn:Hx; [| discriminate].
    destruct (EstimatePages.parse_parts rest) as [fs' | e]; simpl;
      [| discriminate].
    intros H. injection H as <-. destruct (IH fs' eq_refl) as [Hall Hlen].
    split.
    + constructor; [rewrite Hx; discriminate | exact Hall].
    + simpl. rewrite Hlen. reflexivity.
Qed.

Lemma parse_parts_total (parts : list string) :
  Forall (fun x => float_of_str x <> None) parts ->
  exists fs, EstimatePages.parse_parts parts = Returned fs.
Proof.
  induction 1 as [| x rest Hx _ [fs IH]]; simpl.
  - eexists. reflexivity.
  - destruct (float_of_str x) as [f |]; [| contradiction].
    rewrite IH. eexists. reflexivity.
Qed.

Lemma parse_parts_raises (parts : list string) (e : exn) :
  EstimatePages.parse_parts parts = Raised e -> exists msg, e = ValueError msg.
Proof.
  induction parts as [| x rest IH]; simpl; [discriminate |].
  destruct (float_of_str x) as [f |].
  - destruct (EstimatePages.parse_parts rest) as [fs | e']; simpl;
      [discriminate |].
    intros H. injection H as <-. apply IH. reflexivity.
  - intros H. injection H as <-. eexists. reflexivity.
Qed.

(** C10. parse_margins returns a margin mapping exactly when every
    comma-separated part of its input parses as a float and the number of
    parts is 1, 2 or 4; in every other case it raises ValueError; and with
    four parts the mapping has them in the order top, bottom, left, right,
    each multiplied by 72. *)
Theorem parse_margins_spec (margin_str : string) :
  let parts := split_on "," margin_str in
  ((exists m, EstimatePages.parse_margins margin_str = Returned m)
   <-> Forall (fun x => float_of_str x <> None) parts
       /\ (length parts = 1 \/ length parts = 2 \/ length parts = 4)%nat)
  /\ ((exists m, EstimatePages.parse_margins margin_str = Returned m)
      \/ (exists msg,
            EstimatePages.parse_margins margin_str = Raised (ValueError msg)))
  /\ (forall x0 x1 x2 x3 f0 f1 f2 f3,
        parts = [x0; x1; x2; x3] ->
        float_of_str x0 = Some f0 -> float_of_str x1 = Some f1 ->
        float_of_str x2 = Some f2 -> float_of_str x3 = Some f3 ->
        EstimatePages.parse_margins margin_str
        = Returned
            {| EstimatePages.top := fmul f0 (float_of_int 72);
               EstimatePages.bottom := fmul f1 (float_of_int 72);
               EstimatePages.left := fmul f2 (float_of_int 72);
               EstimatePages.right := fmul f3 (float_of_int 72) |}).
Proof.
  intros parts. unfold EstimatePages.parse_margins. fold parts.
  split; [| split].
  - split.
    + intros [m Hm].
      destruct (EstimatePages.parse_parts parts) as [fs | e] eqn:Hp;
        [| discriminate].
      destruct (parse_parts_returned parts fs Hp) as [Hall Hlen].
      split; [exact Hall |]. rewrite <- Hlen. simpl in Hm.
      destruct fs as [| a [| b [| c [| d [| ? ?]]]]]; try discriminate;
        simpl; auto.
    + intros [Hall Hlen].
      destruct (parse_parts_total parts Hall) as [fs Hp]. rewrite Hp.
      destruct (parse_parts_returned parts fs Hp) as [_ Hfs].
      rewrite <- Hfs in Hlen. simpl.
      destruct fs as [| a [| b [| c [| d [| ? ?]]]]]; simpl in Hlen;
        try lia; eexists; reflexivity.
  - destruct (EstimatePages.parse_parts parts) as [fs | e] eqn:Hp; simpl.
    + destruct fs as [| a [| b [| c [| d [| ? ?]]]]];
        first [ left; eexists; reflexivity | right; eexists; reflexivity ].
    + right. destruct (parse_parts_raises parts e Hp) as [msg ->].
      exists msg. reflexivity.
  - intros x0 x1 x2 x3 f0 f1 f2 f3 -> H0 H1 H2 H3. simpl.
    rewrite H0, H1, H2, H3. reflexivity.
Qed.

End Margins.

(** Four margins, in inches: the fourth is the right margin. *)
Lemma parse_margins_spec_witness :
  EstimatePages.parse_margins (py := Binary64.runtime) "1,1,0.75,0.5"
  = Returned
      (EstimatePages.mkMargins (py := Binary64.runtime)
         72%float 72%float 54%float 36%float).
Proof.
  destruct (parse_margins_spec (py := Binary64.runtime) "1,1,0.75,0.5")
    as [_ [_ H]].
  apply (H "1" "1" "0.75" "0.5" 1%float 1%float 0.75%float 0.5%float);
    vm_compute; reflexivity.
Defined.

(** [(n + d - 1) // d] is the ceiling of [n / d] for a positive [d]. *)
Lemma ceiling_division (n d : Z) :
  0 < d -> (n + d - 1) / d = Qceiling (inject_Z n / inject_Z d).
Proof.
  intros Hd. destruct d as [| p | p]; try lia.
  unfold Qceiling, Qfloor, Qdiv, Qmult, Qinv, Qopp, inject_Z.
  cbn [Qnum Qden]. rewrite Z.mul_1_r, Pos.mul_1_l.
  pose proof (Z.div_mod (- n) (Z.pos p) ltac:(lia)) as Hdm.
  pose proof (Z.mod_pos_bound (- n) (Z.pos p) ltac:(lia)) as Hb.
  symmetry.
  apply (Z.div_unique_pos _ _ _ (Z.pos p - 1 - (- n) mod Z.pos p)); lia.
Qed.

Section Estimate.
Context {py : PyRuntime}.

(** Reading a file that is there. *)
Lemma world_count_text (w : World) (path : string) (file : File) :
  files w !! path = Some file ->
  run world (EstimatePages.count_text path) w
  = (Returned (EstimatePages.counts (decoded file)), w).
Proof.
  intros Hfile. unfold EstimatePages.count_text.
  rewrite run_bind, run_trigger.
  change (world (Exc text) (ReadText path "utf-8") w)
    with (read_text path "utf-8" w, w).
  unfold read_text at 1 2. rewrite Hfile. cbn [fst snd String.eqb Ascii.eqb Bool.eqb].
  unfold decoded. destruct (as_utf8 file) as [t |]; [reflexivity |].
  unfold bind_exc. rewrite run_bind, run_trigger.
  change (world (Exc text) (ReadText path "latin-1") w)
    with (read_text path "latin-1" w, w).
  unfold read_text. rewrite Hfile. reflexivity.
Qed.

(** When the characters per page were computed, the two values the
    assumptions show were computed on the way. *)
Lemma assumptions_computed (text_area : pyfloat) (font_size : Z)
    (leading : option pyfloat) (cpp : Z) :
  EstimatePages.estimate_chars_per_page text_area font_size leading
  = Returned cpp ->
  exists shown width,
    EstimatePages.leading_or_default font_size leading = Returned shown
    /\ EstimatePages.mul_int_float font_size lit_0_5 = Returned width.
Proof.
  unfold EstimatePages.estimate_chars_per_page,
    EstimatePages.default_leading, EstimatePages.leading_or_default.
  destruct (EstimatePages.mul_int_float font_size lit_0_5) as [width | e]
    eqn:Hw.
  2: { destruct leading as [l |];
         [| destruct (EstimatePages.mul_int_float font_size lit_1_2)];
         discriminate. }
  destruct leading as [l |].
  - cbn [exc_bind]. destruct (fis_zero l) eqn:Hz.
    + intros H. exfalso. revert H.
      destruct (EstimatePages.div_by_float _ width) as [line | e];
        cbn [exc_bind]; [| discriminate].
      destruct (EstimatePages.div_float_by _ _) as [[height |] | e];
        cbn [exc_bind]; try discriminate;
        unfold EstimatePages.div_by_float; rewrite Hz; discriminate.
    + intros _. eexists _, _. split; reflexivity.
  - destruct (EstimatePages.mul_int_float font_size lit_1_2) as [l | e];
      cbn [exc_bind]; [| discriminate].
    intros _. eexists _, _. split; reflexivity.
Qed.

(** C9. For a text file that can be read and a page size, margins, font
    size and leading for which the parsers and the estimate of the
    characters per page return: when the characters per page are at least
    1, estimate_pages returns a PageEstimate whose estimated_pages is
    max(1, ceiling(character_count / chars_per_page)), which is at least 1,
    character_count being the length of the text read; and when the
    characters per page are 0, the division is not guarded and
    estimate_pages raises ZeroDivisionError. *)
Theorem estimate_pages_count (w : World)
    (text_file page_size margins : string) (font_size : Z)
    (leading : option pyfloat) (file : File)
    (dims : EstimatePages.number * EstimatePages.number)
    (m : EstimatePages.Margins) (area : pyfloat) (cpp : Z) :
  files w !! text_file = Some file ->
  EstimatePages.parse_page_size page_size = Returned dims ->
  EstimatePages.parse_margins margins = Returned m ->
  EstimatePages.calculate_text_area dims m = Returned area ->
  EstimatePages.estimate_chars_per_page area font_size leading
  = Returned cpp ->
  let char_count := Z.of_nat (length (decoded file)) in
  let result :=
    fst (run world
           (EstimatePages.estimate_pages text_file page_size font_size
              margins leading) w) in
  (1 <= cpp ->
   exists estimate,
     result = Returned estimate
     /\ EstimatePages.estimated_pages estimate
        = Z.max 1 (Qceiling (inject_Z char_count / inject_Z cpp))
     /\ 1 <= EstimatePages.estimated_pages estimate
     /\ EstimatePages.character_count estimate = char_count
     /\ EstimatePages.chars_per_page estimate = cpp)
  /\ (cpp = 0 -> exists msg, result = Raised (ZeroDivisionError msg)).
Proof.
  intros Hfile Hsize Hmargins Harea Hcpp char_count result.
  destruct (assumptions_computed area font_size leading cpp Hcpp)
    as [shown [width [Hshown Hwidth]]].
  assert (Hrun :
    result
    = match EstimatePages.pages_needed char_count cpp with
      | Returned pages =>
          fst (run world
            (let estimated := Z.max 1 pages in
             shown_leading <-?
               Ret (EstimatePages.leading_or_default font_size leading) ;;
             char_width <-?
               Ret (EstimatePages.mul_int_float font_size lit_0_5) ;;
             let assumptions :=
               ["Font size: " ++ string_of_Z font_size ++ "pt";
                "Leading: " ++ format_1f shown_leading ++ "pt";
                "Average char width: " ++ format_1f char_width ++ "pt";
                "Assumes standard paragraph spacing"] in
             let '(confidence, assumptions) :=
               if (font_size <? 10) || (14 <? font_size) then
                 ("medium",
                  (assumptions
                   ++ ["Unusual font size may affect accuracy"])%list)
               else if negb (bool_decide
                               (is_Some (lookup_key page_size
                                           EstimatePages.PAGE_SIZES)))
               then
                 ("medium",
                  (assumptions
                   ++ ["Custom page size may affect accuracy"])%list)
               else ("high", assumptions) in
             Ret (Returned
                    {| EstimatePages.estimated_pages := estimated;
                       EstimatePages.word_count :=
                         fst (EstimatePages.counts (decoded file));
                       EstimatePages.character_count :=
                         snd (EstimatePages.counts (decoded file));
                       EstimatePages.chars_per_page := cpp;
                       EstimatePages.confidence := confidence;
                       EstimatePages.assumptions := assumptions |})) w)
      | Raised e => Raised e
      end).
  { unfold result, EstimatePages.estimate_pages, bind_exc.
    rewrite Hsize. cbn [bind]. rewrite Hmargins. cbn [bind].
    rewrite run_bind, (world_count_text w text_file file Hfile).
    cbn [fst snd]. rewrite Harea. cbn [bind]. rewrite Hcpp. cbn [bind].
    change (snd (EstimatePages.counts (decoded file))) with char_count.
    destruct (EstimatePages.pages_needed char_count cpp) as [pages | e];
      reflexivity. }
  rewrite Hrun. unfold EstimatePages.pages_needed. split.
  - intros Hpos. replace (cpp =? 0) with false by (symmetry; apply Z.eqb_neq; lia).
    unfold bind_exc. rewrite Hshown, Hwidth. cbn [bind].
    rewrite (ceiling_division char_count cpp) by lia.
    destruct ((font_size <? 10) || (14 <? font_size));
      [| destruct (negb _)];
      (eexists; split; [reflexivity |]; cbn;
       repeat split; try reflexivity; lia).
  - intros ->. cbn. eexists. reflexivity.
Qed.

End Estimate.

(** A 6 by 9 inch page, 12 point type, margins of three quarters of an
    inch: 2025 characters per page, and three pages for the manuscript of
    5000 characters. *)
Lemma estimate_pages_count_witness :
  exists estimate,
    fst (run world
           (EstimatePages.estimate_pages (py := Binary64.runtime)
              "manuscript.txt" "6x9" 12 "0.75,0.75,0.75,0.75" None)
           Scenario.desk)
    = Returned estimate
    /\ EstimatePages.estimated_pages estimate
       = Z.max 1 (Qceiling (inject_Z 5000 / inject_Z 2025))
    /\ 1 <= EstimatePages.estimated_pages estimate
    /\ EstimatePages.character_count estimate = 5000
    /\ EstimatePages.chars_per_page estimate = 2025.
Proof.
  assert (H1 : files Scenario.desk !! "manuscript.txt"
               = Some Scenario.manuscript) by (vm_compute; reflexivity).
  assert (H2 : EstimatePages.parse_page_size (py := Binary64.runtime) "6x9"
               = Returned (EstimatePages.Int 432, EstimatePages.Int 648))
    by reflexivity.
  assert (H3 : EstimatePages.parse_margins (py := Binary64.runtime)
                 "0.75,0.75,0.75,0.75"
               = Returned (EstimatePages.mkMargins (py := Binary64.runtime)
                             54%float 54%float 54%float 54%float))
    by reflexivity.
  assert (H4 : EstimatePages.calculate_text_area (py := Binary64.runtime)
                 (EstimatePages.Int 432, EstimatePages.Int 648)
                 (EstimatePages.mkMargins (py := Binary64.runtime)
                    54%float 54%float 54%float 54%float)
               = Returned 174960%float) by reflexivity.
  assert (H5 : EstimatePages.estimate_chars_per_page
                 (py := Binary64.runtime) 174960%float 12 None
               = Returned 2025) by reflexivity.
  pose proof (estimate_pages_count (py := Binary64.runtime) Scenario.desk
                "manuscript.txt" "6x9" "0.75,0.75,0.75,0.75" 12 None
                Scenario.manuscript _ _ _ 2025 H1 H2 H3 H4 H5) as H.
  destruct H as [H _].
  assert (Hn : Z.of_nat (length (decoded Scenario.manuscript)) = 5000)
    by (vm_compute; reflexivity).
  rewrite Hn in H. apply H. lia.
Defined.

(** ** The scripts at work *)

Example estimate_main_runs :
  let '(code, w) :=
    run world
      (EstimatePages.main
         (EstimatePages.mkNamespace (py := Binary64.runtime)
            "manuscript.txt" "6x9" 12 "0.75,0.75,0.75,0.75" None))
      Scenario.desk in
  code = Returned 0
  /\ nth 9 (stdout w) "" = "
📄 Estimated Pages: 3"
  /\ nth 11 (stdout w) "" = "🔤 Character Count: 5,000"
  /\ nth 16 (stdout w) "" = "  • Leading: 14.4pt"
  /\ stderr w = [].
Proof. vm_compute. repeat split. Qed.

Example estimate_main_zero_leading :
  let '(code, w) :=
    run world
      (EstimatePages.main
         (EstimatePages.mkNamespace (py := Binary64.runtime)
            "manuscript.txt" "6x9" 12 "0.75" (Some 0%float)))
      Scenario.desk in
  code = Returned 1
  /\ stderr w = ["Error during estimation: float division by zero"].
Proof. vm_compute. repeat split. Qed.

(** The estimate is made, and the report ends at the line that holds the
    first pictograph: nine lines were written and the process exits with
    status 1, not 0. *)
Example estimate_main_on_teletype :
  let '(result, w) :=
    run world
      (EstimatePages.main
         (EstimatePages.mkNamespace (py := Binary64.runtime)
            "manuscript.txt" "6x9" 12 "0.75,0.75,0.75,0.75" None))
      Scenario.teletype in
  result = Raised (UnicodeEncodeError "codec can't encode character")
  /\ exit_status result = 1
  /\ length (stdout w) = 9%nat
  /\ stderr w = [].
Proof. vm_compute. repeat split. Qed.

(** A file name of 5000 characters: the look-up itself raises, outside
    the try block of main. *)
Example estimate_main_long_name :
  let '(result, w) :=
    run world
      (EstimatePages.main
         (EstimatePages.mkNamespace (py := Binary64.runtime)
            (repeat_str "a" 5000) "6x9" 12 "0.75" None))
      Scenario.desk in
  result = Raised (OSError "File name too long")
  /\ stdout w = [] /\ stderr w = [].
Proof. vm_compute. repeat split. Qed.

Example estimate_pages_wide_margins :
  fst (run world
         (EstimatePages.estimate_pages (py := Binary64.runtime)
            "manuscript.txt" "6x9" 12 "4" None) Scenario.desk)
  = Raised (TypeError (Binary64.message ComplexToInt)).
Proof. vm_compute. reflexivity. Qed.

Example preflight_wrong_preset :
  fst (run world
         (PreflightPdf.main
            {| PreflightPdf.preset := "[Smallest File Size]";
               PreflightPdf.output_type := "print" |})
         Scenario.desk) = Returned 11.
Proof. vm_compute. reflexivity. Qed.

Example preflight_resolution_message :
  PreflightPdf.errors
    (PreflightPdf.check_resolution "[Smallest File Size]" "pod")
  = ["Resolution too low: Preset is 72dpi, but pod requires 300dpi minimum"].
Proof. reflexivity. Qed.

Example preflight_better_presets :
  PreflightPdf.recommendations
    (PreflightPdf.check_preset_match "[High Quality Print]" "commercial")
  = ["Consider using: [Press Quality], [PDF/X-4:2008]"].
Proof. reflexivity. Qed.

Example validate_main_default :
  let '(code, w) :=
    run world
      (ValidateDocument.main
         {| ValidateDocument.arg_check_overflow := false;
            ValidateDocument.arg_check_fonts := false;
            ValidateDocument.arg_check_styles := false;
            ValidateDocument.arg_check_bounds := false;
            ValidateDocument.arg_all := false |})
      Scenario.desk in
  code = Returned 10
  /\ length (stdout w) = 23%nat
  /\ nth 11 (stdout w) "" = "    - MCP tools not available - cannot check overflow"
  /\ nth 22 (stdout w) "" = "⚠ Checks passed with warnings".
Proof. vm_compute. repeat split. Qed.

Example server_registers_all_tools :
  registered_tools (Scenario.server Scenario.drops)
  = map InDesign.tool_name InDesign.all_tools
  /\ length InDesign.all_tools = 25%nat.
Proof. vm_compute. repeat split. Qed.

(** * Further properties *)

(** ** Programs whose calls are all of one kind *)

Lemma only_bind (allowed : forall X, Event X -> Prop) {A B} (p : Prog A)
    (f : A -> Prog B) :
  only allowed p -> (forall a, only allowed (f a)) -> only allowed (bind p f).
Proof.
  intros Hp Hf. induction p as [a | X e k IH]; simpl.
  - apply Hf.
  - destruct Hp as [He Hk]. split; [exact He |].
    intros x. apply IH, Hk.
Qed.

Lemma only_weaken (allowed allowed' : forall X, Event X -> Prop) {R}
    (p : Prog R) :
  (forall X (e : Event X), allowed X e -> allowed' X e) ->
  only allowed p -> only allowed' p.
Proof.
  intros Hw. induction p as [r | X e k IH]; simpl; [auto |].
  intros [He Hk]. split; [apply Hw, He |]. intros x. apply IH, Hk.
Qed.

(** Peel a program apart, one node at a time. *)
Ltac only_step :=
  match goal with
  | |- only _ (bind _ _) => apply only_bind; [| intros ?]
  | |- only _ (bind_exc _ _) => apply only_bind; [| intros [?|?]]
  | |- only _ (Ret _) => exact I
  | |- only _ (print _) => split; [exact I | intros ?; exact I]
  | |- only _ (print_err _) => split; [exact I | intros ?; exact I]
  | |- only _ (trigger _) =>
      split; [simpl; auto | intros ?; exact I]
  | |- only _ (if ?c then _ else _) => destruct c
  | |- only _ (let '(_, _) := (if ?c then _ else _) in _) => destruct c
  | |- only _ (let '(_, _) := ?x in _) => destruct x
  | |- only _ (match ?r with Returned _ => _ | Raised _ => _ end) =>
      destruct r
  | |- only _ (match ?e with UnicodeDecodeError _ => _ | _ => _ end) =>
      destruct e
  | |- only _ _ => solve [auto]
  end.

Ltac only_tac := repeat (only_step; cbn beta iota zeta).

(** A program that only prints makes calls of one kind. *)
Lemma prints_then_only (allowed : forall X, Event X -> Prop) {R} (v : R)
    (p : Prog (Exc R)) :
  (forall line, allowed _ (Print line)) ->
  prints_then v p -> only allowed p.
Proof.
  intros Ha. induction p as [r | X e k IH]; simpl; [auto |].
  intros [He Hk]. split; [destruct e; try contradiction; apply Ha |].
  intros x. specialize (Hk x).
  destruct (print_raised e x); [rewrite Hk; exact I | apply IH, Hk].
Qed.

(** ** The operations of the InDesign server *)

(** Two tool calls ask for a command of the same name exactly when they
    are calls of the same operation: the 25 operations have 25 different
    command names, each fixed by its operation. *)
Theorem command_names_distinct (t1 t2 : InDesign.Tool)
    (a1 : InDesign.Args t1) (a2 : InDesign.Args t2) :
  option_map fst (requested (InDesign.invoke t1 a1))
  = option_map fst (requested (InDesign.invoke t2 a2))
  <-> t1 = t2.
Proof.
  split.
  - revert a1 a2. destruct t1, t2; simpl; intros a1 a2;
      repeat match goal with p : (_ * _)%type |- _ => destruct p end;
      simpl; intros H; first [reflexivity | discriminate H].
  - intros <-. revert a1 a2. destruct t1; simpl; intros a1 a2;
      repeat match goal with p : (_ * _)%type |- _ => destruct p end;
      reflexivity.
Qed.

(** The keys of the payload of an operation do not depend on the values
    of its arguments, and no key occurs twice. *)
Theorem payload_keys_fixed (t : InDesign.Tool) (a1 a2 : InDesign.Args t) :
  match requested (InDesign.invoke t a1),
        requested (InDesign.invoke t a2) with
  | Some (_, options1), Some (_, options2) =>
      map fst options1 = map fst options2 /\ NoDup (map fst options1)
  | _, _ => False
  end.
Proof.
  revert a1 a2. destruct t; simpl; intros a1 a2;
    repeat match goal with p : (_ * _)%type |- _ => destruct p end;
    simpl; (split; [reflexivity |]);
    apply (bool_decide_unpack _); vm_compute; reflexivity.
Qed.

(** No argument is dropped or merged: two calls of an operation ask for
    the same command exactly when their arguments are the same. *)
Theorem payload_determines_arguments (t : InDesign.Tool)
    (a1 a2 : InDesign.Args t) :
  requested (InDesign.invoke t a1) = requested (InDesign.invoke t a2)
  <-> a1 = a2.
Proof.
  split; [| intros ->; reflexivity].
  revert a1 a2. destruct t; simpl; intros a1 a2;
    repeat match goal with
           | p : (_ * _)%type |- _ => destruct p
           | u : unit |- _ => destruct u
           | o : option _ |- _ => destruct o
           end;
    simpl; intros H; try reflexivity; try discriminate H;
    injection H; intros; subst; reflexivity.
Qed.

Section Serving.
Context {S : Type} (h : handler S).

Lemma creations_app (l1 l2 : list BridgeCall) :
  creations (l1 ++ l2) = (creations l1 ++ creations l2)%list.
Proof. unfold creations. apply flat_map_app. Qed.

Lemma sendings_app (l1 l2 : list BridgeCall) :
  sendings (l1 ++ l2) = (sendings l1 ++ sendings l2)%list.
Proof. unfold sendings. apply flat_map_app. Qed.

(** One call: the builder is asked once, for the command of the call;
    the facade is handed at most one command. *)
Lemma trace_dispatch_shape (action : string) (options : dict) (s : S) :
  creations (trace h (dispatch action options) s) = [(action, options)]
  /\ (length (sendings (trace h (dispatch action options) s)) <= 1)%nat.
Proof.
  unfold dispatch, bind_exc, createCommand, sendCommand, trigger. simpl.
  destruct (h _ (CreateCommand action options) s) as [[command | e] s'];
    simpl.
  - destruct (h _ (SendCommand command) s') as [r s'']. simpl.
    split; [reflexivity | lia].
  - split; [reflexivity | lia].
Qed.

(** Served one after the other, every tool call asks the builder for
    exactly one command, its own, in the order of the calls and whatever
    became of the calls before it (a call that raised does not stop the
    next); and no more commands are sent than calls were made. *)
Theorem serve_dispatches_each_call (calls : list InDesign.Call) (s : S) :
  map Some (creations (trace h (InDesign.serve calls) s))
  = map (fun c => requested (InDesign.invoke (InDesign.tool c)
                               (InDesign.args c))) calls
  /\ (length (sendings (trace h (InDesign.serve calls) s))
      <= length calls)%nat.
Proof.
  revert s. induction calls as [| [t a] rest IH]; intros s.
  - split; [reflexivity | simpl; lia].
  - cbn [InDesign.serve]. rewrite trace_bind, creations_app, sendings_app.
    rewrite map_app, length_app. cbn [map InDesign.tool InDesign.args].
    destruct (invoke_dispatch t) as [action Ha].
    destruct (Ha a) as [options Ho]. rewrite Ho.
    destruct (trace_dispatch_shape action options s) as [Hc Hs].
    rewrite Hc.
    match goal with
    | |- context [trace h (InDesign.serve rest) ?s1] =>
        destruct (IH s1) as [IHc IHs]
    end.
    split.
    + cbn [map app]. rewrite IHc. reflexivity.
    + cbn [length]. lia.
Qed.

End Serving.





(** ** What the scripts touch *)

Lemma only_preflight_main (args : PreflightPdf.Namespace) :
  only (@prints) (PreflightPdf.main args).
Proof.
  eapply prints_then_only; [intros line; exact I |].
  apply preflight_main_prints.
Qed.

Lemma only_validate_main (args : ValidateDocument.Namespace) :
  only (@prints) (ValidateDocument.main args).
Proof.
  eapply prints_then_only; [intros line; exact I |].
  apply validate_main_prints.
Qed.

(** The pre-flight checker and the document validator do nothing but
    write lines to the standard output: they read no file, write nothing
    to the standard error and call neither the bridge nor the host. *)
Theorem checkers_only_print :
  (forall args : PreflightPdf.Namespace,
     only (@prints) (PreflightPdf.main args))
  /\ (forall args : ValidateDocument.Namespace,
        only (@prints) (ValidateDocument.main args)).
Proof.
  split; intros args; [apply only_preflight_main | apply only_validate_main].
Qed.

Section EstimateFrame.
Context {py : PyRuntime}.

Lemma only_count_text (path : string) :
  only (@uses_file path) (EstimatePages.count_text path).
Proof.
  unfold EstimatePages.count_text.
  apply only_bind; [split; [simpl; auto | intros ?; exact I] |].
  intros [content | e]; [exact I |].
  destruct e; try exact I.
  unfold bind_exc. apply only_bind.
  - split; [simpl; auto | intros ?; exact I].
  - intros [content | e]; exact I.
Qed.

Lemma only_print_assumptions (path : string) (items : list string) :
  only (@uses_file path) (EstimatePages.print_assumptions items).
Proof.
  eapply prints_then_only; [intros line; exact I |].
  apply prints_then_assumptions.
Qed.

(** Besides writing to its two output streams, the page-count estimator
    looks at one file only, the one named on the command line: it asks
    whether it exists and reads it as UTF-8 or as Latin-1. *)
Theorem estimator_uses_one_file (args : EstimatePages.Namespace) :
  only (@uses_file (EstimatePages.text_file args)) (EstimatePages.main args).
Proof.
  unfold EstimatePages.main, EstimatePages.estimate_pages.
  pose proof (only_count_text (EstimatePages.text_file args)).
  pose proof (only_print_assumptions (EstimatePages.text_file args)).
  only_tac.
Qed.

End EstimateFrame.

(** ** The page-count estimator *)

(** A string without the separator splits into itself. *)
Lemma split_on_absent (c : ascii) (s : string) :
  contains c s = false -> split_on c s = [s].
Proof.
  induction s as [| c' rest IH]; simpl; [reflexivity |].
  intros H. apply orb_false_iff in H as [Hc Hrest].
  rewrite Hc, (IH Hrest). reflexivity.
Qed.

Lemma split_on_cons (c : ascii) (s : string) :
  exists part parts, split_on c s = part :: parts.
Proof.
  destruct s as [| c' rest]; simpl; [eauto |].
  destruct (Ascii.eqb c' c); [eauto |].
  destruct (split_on c rest); eauto.
Qed.

Section Parsing.
Context {py : PyRuntime}.

(** parse_page_size, on the string lower-cased and stripped: a named size
    gives the two ints of the table; any other string is accepted exactly
    when it splits at the letter x into two parts that are both floats,
    and then gives the two floats times 72; whatever else is given raises
    ValueError with the message that names the string. *)
Theorem parse_page_size_spec (size_str : string) :
  let s := str_strip (str_lower size_str) in
  match lookup_key s EstimatePages.PAGE_SIZES with
  | Some (width, height) =>
      EstimatePages.parse_page_size size_str
      = Returned (EstimatePages.Int width, EstimatePages.Int height)
  | None =>
      match split_on "x" s with
      | [part0; part1] =>
          match float_of_str part0, float_of_str part1 with
          | Some w, Some h =>
              EstimatePages.parse_page_size size_str
              = Returned
                  (EstimatePages.Float (fmul w (float_of_int 72)),
                   EstimatePages.Float (fmul h (float_of_int 72)))
          | _, _ =>
              EstimatePages.parse_page_size size_str
              = Raised (ValueError
                  ("Invalid page size: " ++ s
                   ++ ". Use named size (letter, 6x9, etc.) or WxH format (6x9, 8.5x11)"))
          end
      | _ =>
          EstimatePages.parse_page_size size_str
          = Raised (ValueError
              ("Invalid page size: " ++ s
               ++ ". Use named size (letter, 6x9, etc.) or WxH format (6x9, 8.5x11)"))
      end
  end.
Proof.
  intros s. unfold EstimatePages.parse_page_size. fold s.
  destruct (lookup_key s EstimatePages.PAGE_SIZES) as [[width height] |];
    [reflexivity |].
  destruct (contains "x" s) eqn:Hx.
  - destruct (split_on "x" s) as [| p0 [| p1 [| p2 rest]]]; try reflexivity.
    unfold EstimatePages.points.
    destruct (float_of_str p0), (float_of_str p1); reflexivity.
  - rewrite (split_on_absent _ _ Hx). reflexivity.
Qed.

(** A margin string without a comma that is a float gives the same margin,
    times 72, on all four sides; and three values are rejected even when
    each of them is a float. *)
Theorem parse_margins_uniform (margin_str : string) :
  (forall f, contains "," margin_str = false ->
             float_of_str margin_str = Some f ->
             EstimatePages.parse_margins margin_str
             = Returned
                 {| EstimatePages.top := fmul f (float_of_int 72);
                    EstimatePages.bottom := fmul f (float_of_int 72);
                    EstimatePages.left := fmul f (float_of_int 72);
                    EstimatePages.right := fmul f (float_of_int 72) |})
  /\ (forall x0 x1 x2 f0 f1 f2,
        split_on "," margin_str = [x0; x1; x2] ->
        float_of_str x0 = Some f0 -> float_of_str x1 = Some f1 ->
        float_of_str x2 = Some f2 ->
        EstimatePages.parse_margins margin_str
        = Raised (ValueError
            "Invalid margin format. Use: single value, two values (TB,LR), or four values (T,B,L,R)")).
Proof.
  unfold EstimatePages.parse_margins. split.
  - intros f Hc Hf. rewrite (split_on_absent _ _ Hc). simpl. rewrite Hf.
    reflexivity.
  - intros x0 x1 x2 f0 f1 f2 -> H0 H1 H2. simpl. rewrite H0, H1, H2.
    reflexivity.
Qed.

(** When the square root of the text area is a complex number,
    estimate_chars_per_page does not return: it raises TypeError from
    int(), or before that ZeroDivisionError or OverflowError. *)
Lemma complex_root_raises (text_area : pyfloat) (font_size : Z)
    (leading : option pyfloat) :
  fpow_half text_area = None ->
  exists msg,
    EstimatePages.estimate_chars_per_page text_area font_size leading
    = Raised (TypeError msg)
    \/ EstimatePages.estimate_chars_per_page text_area font_size leading
       = Raised (ZeroDivisionError msg)
    \/ EstimatePages.estimate_chars_per_page text_area font_size leading
       = Raised (OverflowError msg).
Proof.
  intros Hneg.
  unfold EstimatePages.estimate_chars_per_page, EstimatePages.pow_half,
    EstimatePages.default_leading, EstimatePages.mul_int_float,
    EstimatePages.to_float.
  rewrite Hneg.
  destruct (int_fits_float font_size); [| destruct leading; cbn; eauto].
  destruct leading as [l |]; cbn;
    (destruct (fis_zero (fmul (float_of_int font_size) lit_0_5)); cbn;
     [eauto |]);
    [ destruct (fis_zero l)
    | destruct (fis_zero (fmul (float_of_int font_size) lit_1_2)) ];
    cbn; eauto.
Qed.

(** When the text height is not a number, whatever it is divided by,
    estimate_chars_per_page does not return either: it raises ValueError
    from int(), or before that ZeroDivisionError or OverflowError. *)
Lemma nan_height_raises (text_area root : pyfloat) (font_size : Z)
    (leading : option pyfloat) :
  fpow_half text_area = Some root ->
  fis_zero root = false ->
  (forall a l, fis_nan (fmul a (fdiv (fdiv text_area root) l)) = true) ->
  exists msg,
    EstimatePages.estimate_chars_per_page text_area font_size leading
    = Raised (ValueError msg)
    \/ EstimatePages.estimate_chars_per_page text_area font_size leading
       = Raised (ZeroDivisionError msg)
    \/ EstimatePages.estimate_chars_per_page text_area font_size leading
       = Raised (OverflowError msg).
Proof.
  intros Hroot Hzero Hnan.
  unfold EstimatePages.estimate_chars_per_page, EstimatePages.pow_half,
    EstimatePages.default_leading, EstimatePages.mul_int_float,
    EstimatePages.to_float.
  rewrite Hroot.
  destruct (int_fits_float font_size); [| destruct leading; cbn; eauto].
  destruct leading as [l |]; cbn;
    (destruct (fis_zero (fmul (float_of_int font_size) lit_0_5)); cbn;
     [eauto |]);
    rewrite Hzero; cbn;
    [ destruct (fis_zero l)
    | destruct (fis_zero (fmul (float_of_int font_size) lit_1_2)) ];
    cbn; try rewrite Hnan; eauto.
Qed.

(** A leading of zero never gives an estimate: estimate_chars_per_page
    raises ZeroDivisionError, or OverflowError when the font size does not
    fit a float. *)
Theorem zero_leading_raises (text_area : pyfloat) (font_size : Z)
    (leading : pyfloat) :
  fis_zero leading = true ->
  exists msg,
    EstimatePages.estimate_chars_per_page text_area font_size (Some leading)
    = Raised (ZeroDivisionError msg)
    \/ EstimatePages.estimate_chars_per_page text_area font_size
         (Some leading)
       = Raised (OverflowError msg).
Proof.
  intros Hz.
  unfold EstimatePages.estimate_chars_per_page, EstimatePages.pow_half,
    EstimatePages.default_leading, EstimatePages.mul_int_float,
    EstimatePages.to_float.
  destruct (int_fits_float font_size); cbn; [| eauto].
  destruct (fpow_half text_area) as [root |]; cbn.
  - destruct (fis_zero (fmul (float_of_int font_size) lit_0_5)); cbn;
      [eauto |].
    destruct (fis_zero root); cbn; [eauto |]. rewrite Hz. eauto.
  - destruct (fis_zero (fmul (float_of_int font_size) lit_0_5)); cbn;
      [eauto |].
    rewrite Hz. eauto.
Qed.

End Parsing.

(** *** Negative areas, in binary64 *)

Lemma SFeqb_refl (f : spec_float) : f <> S754_nan -> SFeqb f f = true.
Proof.
  unfold SFeqb. destruct f as [s | s | | s m e]; simpl; try reflexivity.
  - destruct s; reflexivity.
  - intros H. contradiction.
  - rewrite Z.compare_refl, Pos.compare_cont_refl. destruct s; reflexivity.
Qed.

(** A float below zero is a number. *)
Lemma negative_not_nan (x : PrimFloat.float) :
  PrimFloat.ltb x PrimFloat.zero = true -> PrimFloat.is_nan x = false.
Proof.
  rewrite FloatAxioms.ltb_spec. unfold PrimFloat.is_nan. rewrite FloatAxioms.eqb_spec.
  intros Hlt. rewrite SFeqb_refl; [reflexivity |].
  intros Hnan. rewrite Hnan in Hlt. discriminate Hlt.
Qed.

Lemma infinite_spec (x : PrimFloat.float) :
  PrimFloat.is_infinity x = true -> exists s, Prim2SF x = S754_infinity s.
Proof.
  unfold PrimFloat.is_infinity. rewrite FloatAxioms.eqb_spec, FloatAxioms.abs_spec.
  destruct (Prim2SF x) as [s | s | | s m e]; try discriminate; eauto.
Qed.

Lemma nan_spec (x : PrimFloat.float) :
  Prim2SF x = S754_nan -> PrimFloat.is_nan x = true.
Proof.
  intros H. unfold PrimFloat.is_nan. rewrite FloatAxioms.eqb_spec, H. reflexivity.
Qed.

(** Infinity divided by infinity is not a number, and nothing computed
    from it is. *)
Lemma div_infinities (x : PrimFloat.float) :
  PrimFloat.is_infinity x = true ->
  Prim2SF (PrimFloat.div x PrimFloat.infinity) = S754_nan.
Proof.
  intros H. destruct (infinite_spec x H) as [s Hs].
  rewrite FloatAxioms.div_spec, Hs. reflexivity.
Qed.

Lemma div_nan (x y : PrimFloat.float) :
  Prim2SF x = S754_nan -> Prim2SF (PrimFloat.div x y) = S754_nan.
Proof. intros H. rewrite FloatAxioms.div_spec, H. reflexivity. Qed.

Lemma mul_nan (x y : PrimFloat.float) :
  Prim2SF y = S754_nan -> Prim2SF (PrimFloat.mul x y) = S754_nan.
Proof.
  intros H. rewrite FloatAxioms.mul_spec, H. destruct (Prim2SF x); reflexivity.
Qed.

(** When the text area is negative (the margins are wider than the page)
    estimate_chars_per_page never returns.  The square root of a finite
    negative area is a complex number, and the function raises TypeError
    from int(), or before that ZeroDivisionError or OverflowError.  The
    square root of minus infinity is infinity, the text height is then not
    a number, and the function raises ValueError from int(), or before
    that ZeroDivisionError or OverflowError. *)
Theorem negative_area_raises (text_area : PrimFloat.float) (font_size : Z)
    (leading : option PrimFloat.float) :
  PrimFloat.ltb text_area PrimFloat.zero = true ->
  exists e,
    EstimatePages.estimate_chars_per_page (py := Binary64.runtime)
      text_area font_size leading = Raised e
    /\ match e with
       | TypeError _ => PrimFloat.is_infinity text_area = false
       | ValueError _ => PrimFloat.is_infinity text_area = true
       | ZeroDivisionError _ | OverflowError _ => True
       | _ => False
       end.
Proof.
  intros Hneg. pose proof (negative_not_nan _ Hneg) as Hnan.
  destruct (PrimFloat.is_infinity text_area) eqn:Hinf.
  - assert (Hroot : fpow_half (PyRuntime := Binary64.runtime) text_area
                    = Some PrimFloat.infinity).
    { cbn [fpow_half Binary64.runtime]. unfold Binary64.pow_half.
      rewrite Hnan, Hinf. reflexivity. }
    destruct (nan_height_raises (py := Binary64.runtime) text_area
                PrimFloat.infinity font_size leading Hroot eq_refl)
      as [msg [H | [H | H]]];
      [ intros a l;
        apply nan_spec, mul_nan, div_nan, div_infinities, Hinf
      | rewrite H; eexists; (split; [reflexivity |]);
        first [exact I | reflexivity] .. ].
  - assert (Hroot : fpow_half (PyRuntime := Binary64.runtime) text_area
                    = None).
    { cbn [fpow_half Binary64.runtime]. unfold Binary64.pow_half.
      rewrite Hnan, Hinf, Hneg. reflexivity. }
    destruct (complex_root_raises (py := Binary64.runtime) text_area
                font_size leading Hroot) as [msg [H | [H | H]]];
      rewrite H; eexists; (split; [reflexivity |]);
      first [exact I | reflexivity].
Qed.

(** The words of a text are at most as many as its characters, and two
    words are a character apart. *)
Lemma split_whitespace_length (content word : text) :
  (2 * length (split_whitespace word content)
   <= length content + 1 + (if word is [] then 0 else 1))%nat.
Proof.
  revert word. induction content as [| c rest IH]; intros word; simpl.
  - destruct word; simpl; lia.
  - destruct (isspace c).
    + destruct word; simpl; specialize (IH []); simpl in IH; lia.
    + specialize (IH (c :: word)). simpl in IH. destruct word; lia.
Qed.

Lemma counts_bounds (content : text) :
  0 <= fst (EstimatePages.counts content)
  /\ 2 * fst (EstimatePages.counts content)
     <= snd (EstimatePages.counts content) + 1.
Proof.
  unfold EstimatePages.counts. cbn [fst snd].
  pose proof (split_whitespace_length content []). simpl in H. lia.
Qed.

Section Estimating.
Context {py : PyRuntime} {S : Type} (h : handler S).

(** What count_text returns are the counts of a text it was given. *)
Lemma count_text_returned (path : string) (s : S) (wc : Z * Z) :
  fst (run h (EstimatePages.count_text path) s) = Returned wc ->
  exists content, wc = EstimatePages.counts content.
Proof.
  unfold EstimatePages.count_text. rewrite run_bind, run_trigger.
  destruct (h _ (ReadText path "utf-8") s) as [[content | e] s1];
    cbn [fst snd].
  - cbn. intros H. injection H as <-. eauto.
  - destruct e; try (cbn; discriminate).
    unfold bind_exc. rewrite run_bind, run_trigger.
    destruct (h _ (ReadText path "latin-1") s1) as [[content | e] s2];
      cbn; [| discriminate].
    intros H. injection H as <-. eauto.
Qed.

(** What an estimate that estimate_pages returned is made of. *)
Lemma estimate_pages_returned (text_file page_size : string) (font_size : Z)
    (margins : string) (leading : option pyfloat) (s : S)
    (estimate : EstimatePages.PageEstimate) :
  fst (run h (EstimatePages.estimate_pages text_file page_size font_size
                margins leading) s) = Returned estimate ->
  exists content pages,
    EstimatePages.pages_needed (snd (EstimatePages.counts content))
      (EstimatePages.chars_per_page estimate) = Returned pages
    /\ EstimatePages.estimated_pages estimate = Z.max 1 pages
    /\ EstimatePages.word_count estimate
       = fst (EstimatePages.counts content)
    /\ EstimatePages.character_count estimate
       = snd (EstimatePages.counts content)
    /\ EstimatePages.confidence estimate
       = (if graded page_size font_size then "high" else "medium")
    /\ length (EstimatePages.assumptions estimate)
       = (if graded page_size font_size then 4 else 5)%nat.
Proof.
  unfold EstimatePages.estimate_pages, bind_exc.
  destruct (EstimatePages.parse_page_size page_size) as [dims | e];
    cbn [bind run fst]; [| discriminate].
  destruct (EstimatePages.parse_margins margins) as [m | e];
    cbn [bind run fst]; [| discriminate].
  rewrite run_bind.
  pose proof (count_text_returned text_file s) as Hcount.
  destruct (run h (EstimatePages.count_text text_file) s) as [[wc | e] s1];
    cbn [fst snd] in *; [| discriminate].
  destruct (Hcount wc eq_refl) as [content ->].
  destruct (EstimatePages.calculate_text_area dims m) as [area | e];
    cbn [bind run fst]; [| discriminate].
  destruct (EstimatePages.estimate_chars_per_page area font_size leading)
    as [cpp | e]; cbn [bind run fst]; [| discriminate].
  destruct (EstimatePages.pages_needed _ cpp) as [pages | e] eqn:Hpages;
    cbn [bind run fst]; [| discriminate].
  destruct (EstimatePages.leading_or_default font_size leading)
    as [shown | e]; cbn [bind run fst]; [| discriminate].
  destruct (EstimatePages.mul_int_float font_size lit_0_5) as [width | e];
    cbn [bind run fst]; [| discriminate].
  unfold graded.
  destruct ((font_size <? 10) || (14 <? font_size));
    [| destruct (bool_decide _)];
    cbn; intros H; injection H as <-; exists content, pages; cbn;
    repeat split; assumption.
Qed.

End Estimating.

Section EstimateProperties.
Context {py : PyRuntime} {S : Type} (h : handler S).

(** In every estimate estimate_pages returns, the number of words is not
    negative and at most the number of characters: between two words
    there is a character, so that twice the word count is at most the
    character count plus one. *)
Theorem estimate_words_bounded (text_file page_size : string)
    (font_size : Z) (margins : string) (leading : option pyfloat) (s : S)
    (estimate : EstimatePages.PageEstimate) :
  fst (run h (EstimatePages.estimate_pages text_file page_size font_size
                margins leading) s) = Returned estimate ->
  0 <= EstimatePages.word_count estimate
  /\ EstimatePages.word_count estimate
     <= EstimatePages.character_count estimate
  /\ 2 * EstimatePages.word_count estimate
     <= EstimatePages.character_count estimate + 1.
Proof.
  intros H.
  destruct (estimate_pages_returned h _ _ _ _ _ _ _ H)
    as [content [pages [_ [_ [Hw [Hc _]]]]]].
  rewrite Hw, Hc. pose proof (counts_bounds content) as [H0 H2].
  assert (0 <= snd (EstimatePages.counts content))
    by (unfold EstimatePages.counts; cbn; lia).
  lia.
Qed.

(** With at least one character per page, the estimated pages hold the
    text and none of them is superfluous: the character count is at most
    the pages times the characters per page, and with more than one page
    the text does not fit one page fewer.  An empty file gives one
    page. *)
Theorem estimate_holds_text (text_file page_size : string)
    (font_size : Z) (margins : string) (leading : option pyfloat) (s : S)
    (estimate : EstimatePages.PageEstimate) :
  fst (run h (EstimatePages.estimate_pages text_file page_size font_size
                margins leading) s) = Returned estimate ->
  1 <= EstimatePages.chars_per_page estimate ->
  EstimatePages.character_count estimate
  <= EstimatePages.estimated_pages estimate
     * EstimatePages.chars_per_page estimate
  /\ (EstimatePages.estimated_pages estimate = 1
      \/ (EstimatePages.estimated_pages estimate - 1)
         * EstimatePages.chars_per_page estimate
         < EstimatePages.character_count estimate)
  /\ (EstimatePages.character_count estimate = 0 ->
      EstimatePages.estimated_pages estimate = 1).
Proof.
  intros H Hcpp.
  destruct (estimate_pages_returned h _ _ _ _ _ _ _ H)
    as [content [pages [Hp [He [_ [Hc _]]]]]].
  rewrite He, Hc. clear He Hc H.
  set (n := snd (EstimatePages.counts content)) in *.
  set (c := EstimatePages.chars_per_page estimate) in *.
  assert (Hn : 0 <= n) by (unfold n, EstimatePages.counts; cbn; lia).
  unfold EstimatePages.pages_needed in Hp.
  destruct (c =? 0) eqn:Hz; [apply Z.eqb_eq in Hz; lia |].
  injection Hp as <-.
  pose proof (Z.div_mod (n + c - 1) c ltac:(lia)) as Hdm.
  pose proof (Z.mod_pos_bound (n + c - 1) c ltac:(lia)) as Hb.
  repeat split; nia.
Qed.

(** With a negative number of characters per page (a negative leading
    gives one) the estimate is one page for every text that is not empty,
    whatever its length. *)
Theorem negative_capacity_one_page (text_file page_size : string)
    (font_size : Z) (margins : string) (leading : option pyfloat) (s : S)
    (estimate : EstimatePages.PageEstimate) :
  fst (run h (EstimatePages.estimate_pages text_file page_size font_size
                margins leading) s) = Returned estimate ->
  EstimatePages.chars_per_page estimate < 0 ->
  1 <= EstimatePages.character_count estimate ->
  EstimatePages.estimated_pages estimate = 1.
Proof.
  intros H Hcpp Hn.
  destruct (estimate_pages_returned h _ _ _ _ _ _ _ H)
    as [content [pages [Hp [He [_ [Hc _]]]]]].
  rewrite He. rewrite Hc in Hn. clear He Hc H.
  set (n := snd (EstimatePages.counts content)) in *.
  set (c := EstimatePages.chars_per_page estimate) in *.
  unfold EstimatePages.pages_needed in Hp.
  destruct (c =? 0) eqn:Hz; [apply Z.eqb_eq in Hz; lia |].
  injection Hp as <-.
  pose proof (Z.div_mod (n + c - 1) c ltac:(lia)) as Hdm.
  pose proof (Z.mod_neg_bound (n + c - 1) c ltac:(lia)) as Hb.
  assert ((n + c - 1) / c <= 1) by nia. lia.
Qed.

(** The confidence of an estimate is high exactly when the font size is
    from 10 to 14 points and the page size, as it was typed and before it
    is lower-cased and stripped, is one of the names of the table; it is
    medium otherwise, never low; and the estimate lists four assumptions,
    five when the confidence is medium. *)
Theorem confidence_spec (text_file page_size : string)
    (font_size : Z) (margins : string) (leading : option pyfloat) (s : S)
    (estimate : EstimatePages.PageEstimate) :
  fst (run h (EstimatePages.estimate_pages text_file page_size font_size
                margins leading) s) = Returned estimate ->
  let named :=
    bool_decide (is_Some (lookup_key page_size EstimatePages.PAGE_SIZES)) in
  EstimatePages.confidence estimate
  = (if (10 <=? font_size) && (font_size <=? 14) && named
     then "high" else "medium")
  /\ length (EstimatePages.assumptions estimate)
     = if (10 <=? font_size) && (font_size <=? 14) && named
       then 4%nat else 5%nat.
Proof.
  intros H named.
  destruct (estimate_pages_returned h _ _ _ _ _ _ _ H)
    as [content [pages [_ [_ [_ [_ [Hconf Hlen]]]]]]].
  rewrite Hconf, Hlen. unfold graded. fold named.
  replace (negb ((font_size <? 10) || (14 <? font_size)))
    with ((10 <=? font_size) && (font_size <=? 14)); [split; reflexivity |].
  destruct (Z.ltb_spec font_size 10), (Z.ltb_spec 14 font_size),
    (Z.leb_spec 10 font_size), (Z.leb_spec font_size 14);
    simpl; try reflexivity; lia.
Qed.

(** A page size or margins that do not parse are rejected before anything
    is done: estimate_pages raises the error of the parser without reading
    the file, or making any other call. *)
Theorem invalid_arguments_read_nothing (text_file page_size : string)
    (font_size : Z) (margins : string) (leading : option pyfloat) (e : exn) :
  (EstimatePages.parse_page_size page_size = Raised e ->
   EstimatePages.estimate_pages text_file page_size font_size margins
     leading = Ret (Raised e))
  /\ (forall dims,
        EstimatePages.parse_page_size page_size = Returned dims ->
        EstimatePages.parse_margins margins = Raised e ->
        EstimatePages.estimate_pages text_file page_size font_size margins
          leading = Ret (Raised e)).
Proof.
  unfold EstimatePages.estimate_pages, bind_exc. split.
  - intros ->. reflexivity.
  - intros dims -> ->. reflexivity.
Qed.





End EstimateProperties.

(** ** The two checkers *)

(** Each of the four checks of the pre-flight checker passes exactly when
    it reports no error, for every preset name and every output type. *)
Theorem preflight_passed_iff_no_errors (preset_name output_type : string)
    (mcp_available : bool) :
  let ok (r : PreflightPdf.PreflightResult) :=
    PreflightPdf.passed r = true <-> PreflightPdf.errors r = [] in
  ok (PreflightPdf.check_preset_exists preset_name mcp_available)
  /\ ok (PreflightPdf.check_preset_match preset_name output_type)
  /\ ok (PreflightPdf.check_color_space preset_name output_type)
  /\ ok (PreflightPdf.check_resolution preset_name output_type).
Proof.
  unfold PreflightPdf.check_preset_exists, PreflightPdf.check_preset_match,
    PreflightPdf.check_color_space, PreflightPdf.check_resolution.
  cbv zeta. repeat split;
    try (destruct mcp_available; simpl; reflexivity || discriminate);
    destruct (lookup_key preset_name PreflightPdf.PRESET_INFO) as [info |];
    simpl; try reflexivity; try discriminate;
    repeat match goal with
           | |- context [if ?c then _ else _] => destruct c; simpl
           | H : context [if ?c then _ else _] |- _ => destruct c; simpl in H
           | |- context [match ?l with [] => _ | _ :: _ => _ end] =>
               destruct l; simpl
           | H : context [match ?l with [] => _ | _ :: _ => _ end] |- _ =>
               destruct l; simpl in H
           | |- _ -> _ => intros ?
           end;
    try reflexivity; try discriminate.
Qed.

(** Decide an arbitrary string against the literal it is compared with:
    either it is the literal, and everything computes, or the comparison
    is false. *)
Ltac decide_string t :=
  repeat match goal with
         | |- context [String.eqb t ?lit] =>
             destruct (String.eqb_spec t lit) as [-> | ?]
         | |- context [String.eqb ?lit t] =>
             destruct (String.eqb_spec lit t) as [<- | ?]
         end.


(** Whenever check_preset_match fails for an output type the parser
    accepts, it recommends presets: the ones whose output types list the
    one asked for, of which there is at least one for each of the six
    choices. *)
Theorem failed_match_recommends (preset_name output_type : string) :
  In output_type PreflightPdf.OUTPUT_TYPE_CHOICES ->
  PreflightPdf.passed
    (PreflightPdf.check_preset_match preset_name output_type) = false ->
  let better :=
    map fst
      (filter (fun entry =>
                 mem output_type (PreflightPdf.output_types (snd entry)))
         PreflightPdf.PRESET_INFO) in
  better <> []
  /\ ~ In preset_name better
  /\ PreflightPdf.recommendations
       (PreflightPdf.check_preset_match preset_name output_type)
     = ["Consider using: " ++ join ", " better].
Proof.
  intros Hin.
  unfold PreflightPdf.check_preset_match, PreflightPdf.PRESET_INFO,
    lookup_key.
  simpl in Hin.
  decompose [or] Hin; try contradiction; subst output_type;
    decide_string preset_name; cbn; intros Hp; try discriminate Hp;
    (split; [discriminate |]); (split; [| reflexivity]);
    intros Hx; simpl in Hx; decompose [or] Hx; try contradiction;
    discriminate.
Qed.

(** The print preset asked for web output: the preset for the smallest
    file size is recommended. *)
Lemma failed_match_recommends_witness :
  PreflightPdf.recommendations
    (PreflightPdf.check_preset_match "[High Quality Print]" "web")
  = ["Consider using: [Smallest File Size]"].
Proof.
  apply (failed_match_recommends "[High Quality Print]" "web").
  - simpl. auto.
  - reflexivity.
Defined.

(** ** The document validator *)


(** With no flag on the command line the validator does what it does
    with --all, and with --all the four other flags make no difference:
    the same lines are printed and the same code returned. *)
Theorem validate_all_flag
    (check_overflow check_fonts check_styles check_bounds : bool) :
  ValidateDocument.main
    {| ValidateDocument.arg_check_overflow := false;
       ValidateDocument.arg_check_fonts := false;
       ValidateDocument.arg_check_styles := false;
       ValidateDocument.arg_check_bounds := false;
       ValidateDocument.arg_all := false |}
  = ValidateDocument.main
      {| ValidateDocument.arg_check_overflow := false;
         ValidateDocument.arg_check_fonts := false;
         ValidateDocument.arg_check_styles := false;
         ValidateDocument.arg_check_bounds := false;
         ValidateDocument.arg_all := true |}
  /\ ValidateDocument.main
       {| ValidateDocument.arg_check_overflow := check_overflow;
          ValidateDocument.arg_check_fonts := check_fonts;
          ValidateDocument.arg_check_styles := check_styles;
          ValidateDocument.arg_check_bounds := check_bounds;
          ValidateDocument.arg_all := true |}
     = ValidateDocument.main
         {| ValidateDocument.arg_check_overflow := false;
            ValidateDocument.arg_check_fonts := false;
            ValidateDocument.arg_check_styles := false;
            ValidateDocument.arg_check_bounds := false;
            ValidateDocument.arg_all := true |}.
Proof.
  split; [reflexivity |].
  destruct check_overflow, check_fonts, check_styles, check_bounds;
    reflexivity.
Qed.

(** ** The estimator in the world *)


Section EstimateWorld.
Context {py : PyRuntime}.



End EstimateWorld.

(** ** The properties at work *)


Example estimate_main_missing_file :
  stderr (snd (run world
                 (EstimatePages.main
                    (EstimatePages.mkNamespace (py := Binary64.runtime)
                       "missing.txt" "6x9" 12 "0.75" None))
                 Scenario.desk))
  = ["Error: File not found: missing.txt"].
Proof. vm_compute. reflexivity. Qed.

(** The run of the estimator on the manuscript. *)
Lemma manuscript_run :
  fst (run world
         (EstimatePages.estimate_pages (py := Binary64.runtime)
            "manuscript.txt" "6x9" 12 "0.75,0.75,0.75,0.75" None)
         Scenario.desk)
  = Returned manuscript_estimate.
Proof. vm_compute. reflexivity. Qed.

Lemma estimate_words_bounded_witness :
  0 <= EstimatePages.word_count manuscript_estimate
  /\ EstimatePages.word_count manuscript_estimate
     <= EstimatePages.character_count manuscript_estimate
  /\ 2 * EstimatePages.word_count manuscript_estimate
     <= EstimatePages.character_count manuscript_estimate + 1.
Proof.
  apply (estimate_words_bounded (py := Binary64.runtime) world
           "manuscript.txt" "6x9" 12 "0.75,0.75,0.75,0.75" None
           Scenario.desk).
  exact manuscript_run.
Defined.

Lemma estimate_holds_text_witness :
  EstimatePages.character_count manuscript_estimate
  <= EstimatePages.estimated_pages manuscript_estimate
     * EstimatePages.chars_per_page manuscript_estimate.
Proof.
  apply (estimate_holds_text (py := Binary64.runtime) world
           "manuscript.txt" "6x9" 12 "0.75,0.75,0.75,0.75" None
           Scenario.desk manuscript_estimate manuscript_run).
  simpl. lia.
Defined.

Lemma confidence_spec_witness :
  EstimatePages.confidence manuscript_estimate = "high"
  /\ length (EstimatePages.assumptions manuscript_estimate) = 4%nat.
Proof.
  apply (confidence_spec (py := Binary64.runtime) world
           "manuscript.txt" "6x9" 12 "0.75,0.75,0.75,0.75" None
           Scenario.desk manuscript_estimate manuscript_run).
Defined.

(** A negative leading: a negative number of characters per page, one
    page for the 5000 characters. *)
Lemma negative_capacity_one_page_witness :
  exists estimate,
    fst (run world
           (EstimatePages.estimate_pages (py := Binary64.runtime)
              "manuscript.txt" "6x9" 12 "0.75,0.75,0.75,0.75"
              (Some (-12)%float))
           Scenario.desk)
    = Returned estimate
    /\ EstimatePages.chars_per_page estimate < 0
    /\ EstimatePages.estimated_pages estimate = 1.
Proof.
  eexists. split; [vm_compute; reflexivity |].
  split; [reflexivity |].
  apply (negative_capacity_one_page (py := Binary64.runtime) world
           "manuscript.txt" "6x9" 12 "0.75,0.75,0.75,0.75"
           (Some (-12)%float) Scenario.desk).
  - vm_compute. reflexivity.
  - reflexivity.
  - simpl. lia.
Defined.

(** An unknown page size: nothing is read. *)
Lemma invalid_arguments_read_nothing_witness :
  exists msg,
    EstimatePages.estimate_pages (py := Binary64.runtime)
      "manuscript.txt" "tabloid" 12 "0.75" None
    = Ret (Raised (ValueError msg)).
Proof.
  eexists.
  apply (invalid_arguments_read_nothing (py := Binary64.runtime)
           "manuscript.txt" "tabloid" 12 "0.75" None).
  reflexivity.
Defined.

(** Margins of four inches on a 6 by 9 inch page. *)
Lemma negative_area_raises_witness :
  exists e,
    EstimatePages.estimate_chars_per_page (py := Binary64.runtime)
      (-10368)%float 12 None = Raised e
    /\ match e with
       | TypeError _ => PrimFloat.is_infinity (-10368)%float = false
       | ValueError _ => PrimFloat.is_infinity (-10368)%float = true
       | ZeroDivisionError _ | OverflowError _ => True
       | _ => False
       end.
Proof.
  apply (negative_area_raises (-10368)%float 12 None).
  reflexivity.
Defined.

(** The two ways a negative area ends: int() of a complex number, int()
    of a text height that is not a number. *)
Example negative_area_errors :
  EstimatePages.estimate_chars_per_page (py := Binary64.runtime)
    (-10368)%float 12 None
  = Raised (TypeError (Binary64.message ComplexToInt))
  /\ EstimatePages.estimate_chars_per_page (py := Binary64.runtime)
       PrimFloat.neg_infinity 12 None
     = Raised (ValueError (Binary64.message FloatNaNToInt)).
Proof. split; reflexivity. Qed.

Lemma zero_leading_raises_witness :
  exists msg,
    EstimatePages.estimate_chars_per_page (py := Binary64.runtime)
      174960%float 12 (Some 0%float) = Raised (ZeroDivisionError msg)
    \/ EstimatePages.estimate_chars_per_page (py := Binary64.runtime)
         174960%float 12 (Some 0%float) = Raised (OverflowError msg).
Proof.
  apply (zero_leading_raises (py := Binary64.runtime)).
  reflexivity.
Defined.

(** One inch all around. *)
Lemma parse_margins_uniform_witness :
  EstimatePages.parse_margins (py := Binary64.runtime) "1"
  = Returned
      (EstimatePages.mkMargins (py := Binary64.runtime)
         72%float 72%float 72%float 72%float).
Proof.
  destruct (parse_margins_uniform (py := Binary64.runtime) "1") as [H _].
  apply (H 1%float); reflexivity.
Defined.

(** A custom size of 7 by 10 inches, and a named size typed in capitals:
    it parses, and is graded as a custom size. *)
Example parse_page_size_custom :
  EstimatePages.parse_page_size (py := Binary64.runtime) "7x10"
  = Returned (EstimatePages.Float (py := Binary64.runtime) 504%float,
              EstimatePages.Float (py := Binary64.runtime) 720%float)
  /\ EstimatePages.parse_page_size (py := Binary64.runtime) " Letter "
     = Returned (EstimatePages.Int (py := Binary64.runtime) 612,
                 EstimatePages.Int (py := Binary64.runtime) 792)
  /\ graded " Letter " 12 = false.
Proof. repeat split. Qed.
